(** * The finance tracker's data handler (week7/assignment7.py)

    A shallow embedding of [DataHandler] and of [parse_date], and the
    properties of the specification that are stated about them.

    How the Python code is read:
    - a [str] is a [string] whose characters are code points below 256;
    - a record is the dict the code builds, with its fixed keys as fields;
    - a method is a function in a state-and-exception monad over the
      object, the two data files and the system date: an exception leaves
      the mutations made before it in place, as in Python;
    - an amount is a value of a numeric interface ([Number]): the code
      only compares amounts with 0, adds and subtracts them, prints them
      and reads them back with [float]; the rounding of binary floating
      point is not part of the model, NaN is;
    - [json.dump] and [json.load] move a value tree to and from the file:
      the JSON text is the library's business. A document is an object
      whose two list fields are each absent, [null] or an array of
      records; writing a file always succeeds. *)

From Stdlib Require Import ZArith Ascii String DecimalString Lia.
From stdpp Require Import base option list.

Local Open Scope Z_scope.

(** ** Strings *)

Definition code (c : ascii) : Z := Z.of_N (N_of_ascii c).

(** [str.isspace] on one character: TAB..CR, FS..US and SPACE, NEL, NBSP. *)
Definition isspace (c : ascii) : bool :=
  let n := code c in
  ((9 <=? n) && (n <=? 13)) || ((28 <=? n) && (n <=? 32))
  || (n =? 133) || (n =? 160).

(** [\d] of the [re] module, on code points below 256: the ASCII digits. *)
Definition isdigit (c : ascii) : bool :=
  let n := code c in (48 <=? n) && (n <=? 57).

(** A character class [[lo-hi]]. *)
Definition between (lo hi c : ascii) : bool :=
  (code lo <=? code c) && (code c <=? code hi).

Definition is_empty (s : string) : bool :=
  match s with EmptyString => true | String _ _ => false end.

Fixpoint lstrip (s : string) : string :=
  match s with
  | EmptyString => EmptyString
  | String c r => if isspace c then lstrip r else s
  end.

Fixpoint rstrip (s : string) : string :=
  match s with
  | EmptyString => EmptyString
  | String c r =>
      let r' := rstrip r in
      if isspace c && is_empty r' then EmptyString else String c r'
  end.

(** [str.strip()] *)
Definition strip (s : string) : string := rstrip (lstrip s).

(** [str.split(sep)] for a one-character separator: never an empty list. *)
Fixpoint split (sep : ascii) (s : string) : list string :=
  match s with
  | EmptyString => [EmptyString]
  | String c r =>
      if Ascii.eqb c sep then EmptyString :: split sep r
      else match split sep r with
           | [] => [String c EmptyString]
           | p :: ps => String c p :: ps
           end
  end.

(** ** Exceptions and results *)

Inductive exn : Type :=
| ValueError (msg : string)
| IndexError
| KeyError (key : string)
| FileNotFoundError
| JSONDecodeError.

Inductive Result (A : Type) : Type :=
| Ok (a : A)
| Raise (e : exn).
Arguments Ok {A} a.
Arguments Raise {A} e.

(** ** Dates: [datetime.strptime(text, "%Y-%m-%d")] and [strftime] *)

Record Date := { year : Z; month : Z; day : Z }.

Definition MINYEAR : Z := 1.
Definition MAXYEAR : Z := 9999.

Definition _is_leap (y : Z) : bool :=
  (y mod 4 =? 0) && (negb (y mod 100 =? 0) || (y mod 400 =? 0)).

Definition _days_in_month (y m : Z) : Z :=
  if (m =? 2) && _is_leap y then 29
  else if m =? 2 then 28
  else if (m =? 4) || (m =? 6) || (m =? 9) || (m =? 11) then 30
  else 31.

(** The check the [date] constructor makes on its fields. *)
Definition _check_date_fields (d : Date) : bool :=
  (MINYEAR <=? year d) && (year d <=? MAXYEAR)
  && (1 <=? month d) && (month d <=? 12)
  && (1 <=? day d) && (day d <=? _days_in_month (year d) (month d)).

(** The regular expressions that [_strptime] builds, and the way [re]
    runs them: alternatives in order, backtracking into the next one when
    the rest of the pattern fails. *)
Inductive regex : Type :=
| Lit (c : ascii)
| Range (lo hi : ascii)
| Digit
| Seq (r1 r2 : regex)
| Alt (r1 r2 : regex).

Fixpoint re_match {A : Type} (r : regex) (s : string)
    (k : string -> string -> option A) : option A :=
  match r with
  | Lit c =>
      match s with
      | String c' s' =>
          if Ascii.eqb c' c then k (String c' EmptyString) s' else None
      | EmptyString => None
      end
  | Range lo hi =>
      match s with
      | String c' s' =>
          if between lo hi c' then k (String c' EmptyString) s' else None
      | EmptyString => None
      end
  | Digit =>
      match s with
      | String c' s' =>
          if isdigit c' then k (String c' EmptyString) s' else None
      | EmptyString => None
      end
  | Seq r1 r2 =>
      re_match r1 s (fun m1 s1 =>
        re_match r2 s1 (fun m2 s2 => k (m1 ++ m2)%string s2))
  | Alt r1 r2 =>
      match re_match r1 s k with
      | Some x => Some x
      | None => re_match r2 s k
      end
  end.

(** [%Y] is [\d\d\d\d]. *)
Definition re_Y : regex := Seq Digit (Seq Digit (Seq Digit Digit)).

(** [%m] is [1[0-2]|0[1-9]|[1-9]]. *)
Definition re_m : regex :=
  Alt (Seq (Lit "1") (Range "0" "2"))
      (Alt (Seq (Lit "0") (Range "1" "9")) (Range "1" "9")).

(** [%d] is [3[0-1]|[1-2]\d|0[1-9]|[1-9]| [1-9]]. *)
Definition re_d : regex :=
  Alt (Seq (Lit "3") (Range "0" "1"))
      (Alt (Seq (Range "1" "2") Digit)
           (Alt (Seq (Lit "0") (Range "1" "9"))
                (Alt (Range "1" "9") (Seq (Lit " ") (Range "1" "9"))))).

(** [int(text)] on a run of digits, with the blanks that [int] strips. *)
Definition digit_value (c : ascii) : Z := code c - 48.

Fixpoint int_digits (acc : Z) (s : string) : Z :=
  match s with
  | EmptyString => acc
  | String c r => int_digits (10 * acc + digit_value c) r
  end.

Definition py_int (s : string) : Z := int_digits 0 (strip s).

(** [format_regex.match(data_string)]: the groups and the unmatched rest. *)
Definition strptime_match (s : string) : option (string * string * string * string) :=
  re_match re_Y s (fun y s1 =>
    re_match (Lit "-") s1 (fun _ s2 =>
      re_match re_m s2 (fun m s3 =>
        re_match (Lit "-") s3 (fun _ s4 =>
          re_match re_d s4 (fun d s5 => Some (y, m, d, s5)))))).

(** [datetime.strptime(text, "%Y-%m-%d")]: the date, or [None] where it
    raises [ValueError] (no match, unconverted data, or fields that are
    not a date). *)
Definition strptime (s : string) : option Date :=
  match strptime_match s with
  | None => None
  | Some (y, m, d, rest) =>
      if is_empty rest then
        let dt := {| year := py_int y; month := py_int m; day := py_int d |} in
        if _check_date_fields dt then Some dt else None
      else None
  end.

Definition digit_char (n : Z) : ascii := ascii_of_N (Z.to_N (48 + n mod 10)).

Definition pad2 (n : Z) : string :=
  String (digit_char (n / 10)) (String (digit_char n) EmptyString).

Definition pad4 (n : Z) : string :=
  String (digit_char (n / 1000)) (String (digit_char (n / 100)) (pad2 n)).

(** [d.strftime("%Y-%m-%d")], the year on four digits (as every platform
    prints the years from 1000 on). *)
Definition strftime (d : Date) : string :=
  (pad4 (year d) ++ "-" ++ pad2 (month d) ++ "-" ++ pad2 (day d))%string.

Definition date_format_message : string := "Date format should be %Y-%m-%d".

(** [parse_date(text)], with the date that [datetime.today()] reads from
    the system clock as an argument. The bare [except] turns every failure
    into the one [ValueError]. *)
Definition parse_date (today : Date) (text : string) : Result string :=
  let text := strip text in
  if is_empty text then Ok (strftime today)
  else match strptime text with
       | Some _ => Ok text
       | None => Raise (ValueError date_format_message)
       end.

(** ** Amounts

    What the code asks of an amount, whether it is an [int] or a [float]:
    the comparison with 0, [+] and [-], its rendering in an f-string and
    [float(text)] to read it back. [zero] is the [int] 0 that [sum] starts
    from. The two laws hold of every Python number, NaN included. *)
Class Number : Type := {
  number : Type;
  zero : number;
  add : number -> number -> number;
  sub : number -> number -> number;
  lt0 : number -> bool;
  ge0 : number -> bool;
  py_float : string -> option number;
  py_format : number -> string;
  ge0_not_lt0 : forall a, ge0 a = true -> lt0 a = false;
  sub_zero_zero : sub zero zero = zero
}.

(** Python's [int] is an instance. Its [float] reads the texts that denote
    an [int] in plain decimal digits, with blanks around them and a minus
    sign allowed, and no others. *)
#[export, refine] Instance int_Number : Number := {|
  number := Z;
  zero := 0;
  add := Z.add;
  sub := Z.sub;
  lt0 := fun a => a <? 0;
  ge0 := fun a => 0 <=? a;
  py_float := fun s => Z.of_int <$> NilZero.int_of_string (strip s);
  py_format := fun a => NilZero.string_of_int (Z.to_int a)
|}.
Proof.
  - intros a Ha. apply Z.leb_le in Ha. apply Z.ltb_ge. exact Ha.
  - reflexivity.
Defined.

(** Numbers with a NaN, here [None]: as [float("nan")] does, it compares
    false with 0 both ways and absorbs in arithmetic. Not declared as an
    instance, so that it never gets picked silently. *)
#[refine] Definition nan_Number : Number := {|
  number := option Z;
  zero := Some 0;
  add := fun a b =>
    match a, b with Some x, Some y => Some (x + y) | _, _ => None end;
  sub := fun a b =>
    match a, b with Some x, Some y => Some (x - y) | _, _ => None end;
  lt0 := fun a => match a with Some x => x <? 0 | None => false end;
  ge0 := fun a => match a with Some x => 0 <=? x | None => false end;
  py_float := fun s =>
    if String.eqb (strip s) "nan" then Some None
    else match NilZero.int_of_string (strip s) with
         | Some i => Some (Some (Z.of_int i))
         | None => None
         end;
  py_format := fun a =>
    match a with
    | Some x => NilZero.string_of_int (Z.to_int x)
    | None => "nan"%string
    end
|}.
Proof.
  - intros [x |] Ha; [| discriminate Ha].
    apply Z.leb_le in Ha. apply Z.ltb_ge. exact Ha.
  - reflexivity.
Defined.

(** [sum(xs)]: from 0, left to right, one [+] per item. *)
Definition py_sum `{Number} (xs : list number) : number :=
  fold_left add xs zero.

(** ** Records, the object, the files *)

(** A list field of the JSON object: [null], or an array of records. *)
Inductive json_list (A : Type) : Type :=
| JNull
| JArray (items : list A).
Arguments JNull {A}.
Arguments JArray {A} items.

Section Ledger.
Context `{Num : Number}.

(** [{"source": ..., "amount": ...}] *)
Record Income := { source : string; income_amount : number }.

(** [{"description": ..., "category": ..., "amount": ..., "date": ...}] *)
Record Expense := {
  description : string;
  category : string;
  expense_amount : number;
  date : string
}.

Record DataHandler := {
  autosave : bool;
  incomes : list Income;
  expenses : list Expense;
  files_loaded : bool
}.

(** The object that [json.load] returns: each key present or not. The
    documents covered are those of the shape that [json.dump] writes for a
    ledger, a list being [null] or an array of records with their fields;
    a document of another shape (an array at the top, an amount that is a
    string, a record without a key) is outside the model. *)
Record json_data := {
  data_incomes : option (json_list Income);
  data_expenses : option (json_list Expense)
}.

(** What [finance_data.json] holds: text that is not JSON, or a document. *)
Inductive json_content : Type :=
| NotJson
| Json (data : json_data).

(** The two files, each absent ([None]) or present. *)
Record Files := {
  finance_data_json : option json_content;
  finance_data_txt : option string
}.

Record World := {
  self : DataHandler;
  disk : Files;
  today : Date
}.

(** ** The monad of a method: state, and exceptions that keep the state *)

Definition M (A : Type) : Type := World -> Result A * World.

Definition ret {A} (a : A) : M A := fun w => (Ok a, w).

Definition raise {A} (e : exn) : M A := fun w => (Raise e, w).

Definition bind {A B} (m : M A) (k : A -> M B) : M B :=
  fun w =>
    match m w with
    | (Ok a, w') => k a w'
    | (Raise e, w') => (Raise e, w')
    end.

(** [try: body / except <caught>: handler] *)
Definition try_except {A} (body : M A) (caught : exn -> bool) (handler : M A) : M A :=
  fun w =>
    match body w with
    | (Ok a, w') => (Ok a, w')
    | (Raise e, w') => if caught e then handler w' else (Raise e, w')
    end.

Definition get : M World := fun w => (Ok w, w).

Definition with_self (d : DataHandler) (w : World) : World :=
  {| self := d; disk := disk w; today := today w |}.

Definition with_disk (fs : Files) (w : World) : World :=
  {| self := self w; disk := fs; today := today w |}.

Definition update_self (f : DataHandler -> DataHandler) : M unit :=
  fun w => (Ok tt, with_self (f (self w)) w).

Definition write_files (fs : Files) : M unit :=
  fun w => (Ok tt, with_disk fs w).

Definition lift {A} (r : Result A) : M A := fun w => (r, w).

End Ledger.

Notation "x <- m ;; k" := (bind m (fun x => k))
  (at level 90, m at level 89, right associativity).
Notation "m ;;; k" := (bind m (fun _ => k))
  (at level 90, right associativity).

Section Methods.
Context `{Num : Number}.

Definition set_incomes (l : list Income) (d : DataHandler) : DataHandler :=
  {| autosave := autosave d; incomes := l; expenses := expenses d;
     files_loaded := files_loaded d |}.

Definition set_expenses (l : list Expense) (d : DataHandler) : DataHandler :=
  {| autosave := autosave d; incomes := incomes d; expenses := l;
     files_loaded := files_loaded d |}.

Definition set_files_loaded (b : bool) (d : DataHandler) : DataHandler :=
  {| autosave := autosave d; incomes := incomes d; expenses := expenses d;
     files_loaded := b |}.

Definition newline : string := String (ascii_of_N 10) EmptyString.

(** [f'Expense|{description}|{category}|{amount}|{date}\n'] *)
Definition expense_line (e : Expense) : string :=
  ("Expense|" ++ description e ++ "|" ++ category e ++ "|"
   ++ py_format (expense_amount e) ++ "|" ++ date e ++ newline)%string.

(** [f'Income|{source}|{amount}\n'] *)
Definition income_line (i : Income) : string :=
  ("Income|" ++ source i ++ "|" ++ py_format (income_amount i) ++ newline)%string.

Definition writelines (ls : list string) : string :=
  fold_right String.append EmptyString ls.

(** [save_to_file]: nothing in test mode; otherwise both files rewritten
    in full, the text file with the expenses before the incomes. *)
Definition save_to_file : M unit :=
  w <- get ;;
  if negb (autosave (self w)) then ret tt
  else
    let data := {| data_incomes := Some (JArray (incomes (self w)));
                   data_expenses := Some (JArray (expenses (self w))) |} in
    let expense_lines := map expense_line (expenses (self w)) in
    let income_lines := map income_line (incomes (self w)) in
    write_files {|
      finance_data_json := Some (Json data);
      finance_data_txt :=
        Some (writelines expense_lines ++ writelines income_lines)%string |}.

(** The object after [self.incomes.append({...})]. *)
Definition appended_income (source : string) (amount : number) d : DataHandler :=
  set_incomes (incomes d ++ [{| source := source; income_amount := amount |}]) d.

(** The object after [self.expenses.append({...})]. *)
Definition appended_expense (description category : string) (amount : number)
    (date : string) d : DataHandler :=
  set_expenses (expenses d ++
    [{| description := description; category := category;
        expense_amount := amount; date := date |}]) d.

Definition add_income (source : string) (amount : number) : M unit :=
  if lt0 amount then raise (ValueError "Income amount can't be negative")
  else if is_empty (strip source) then
    raise (ValueError "Income source must be non-empty")
  else
    update_self (appended_income source amount) ;;;
    save_to_file.

Definition add_expense (description category : string) (amount : number)
    (date : string) : M unit :=
  if is_empty (strip category) then raise (ValueError "Category must be non-empty")
  else if is_empty (strip description) then
    raise (ValueError "Description must be non-empty")
  else if lt0 amount then raise (ValueError "Expense amount can't be negative")
  else
    w <- get ;;
    date <- lift (parse_date (today w) date) ;;
    update_self (appended_expense description category amount date) ;;;
    save_to_file.

(** [del xs[index]]: a negative index counts from the end; outside
    [-len .. len-1] it is an [IndexError] and the list is untouched. *)
Definition del_item {A} (xs : list A) (index : Z) : Result (list A) :=
  let n := Z.of_nat (length xs) in
  let i := if index <? 0 then index + n else index in
  if (i <? 0) || (n <=? i) then Raise IndexError
  else Ok (delete (Z.to_nat i) xs).

Definition delete_income (index : Z) : M unit :=
  w <- get ;;
  l <- lift (del_item (incomes (self w)) index) ;;
  update_self (set_incomes l) ;;;
  save_to_file.

Definition delete_expense (index : Z) : M unit :=
  w <- get ;;
  l <- lift (del_item (expenses (self w)) index) ;;
  update_self (set_expenses l) ;;;
  save_to_file.

Definition total_income (d : DataHandler) : number :=
  py_sum (map income_amount (incomes d)).

Definition total_expenses (d : DataHandler) : number :=
  py_sum (map expense_amount (expenses d)).

Definition balance (d : DataHandler) : number :=
  sub (total_income d) (total_expenses d).

(** *** Loading *)

Definition LF : ascii := ascii_of_N 10.
Definition CR : ascii := ascii_of_N 13.

(** Text mode reads ["\r\n"] and ["\r"] as ["\n"]. *)
Fixpoint universal_newlines (s : string) : string :=
  match s with
  | EmptyString => EmptyString
  | String c r =>
      if Ascii.eqb c CR then
        match r with
        | String c2 r2 =>
            if Ascii.eqb c2 LF then String LF (universal_newlines r2)
            else String LF (universal_newlines r)
        | EmptyString => String LF EmptyString
        end
      else String c (universal_newlines r)
  end.

(** The lines that iterating over a file yields, each with its ["\n"]. *)
Fixpoint readlines (s : string) : list string :=
  match s with
  | EmptyString => []
  | String c r =>
      if Ascii.eqb c LF then String c EmptyString :: readlines r
      else match readlines r with
           | [] => [String c EmptyString]
           | l :: ls => String c l :: ls
           end
  end.

Fixpoint for_each {A} (xs : list A) (body : A -> M unit) : M unit :=
  match xs with
  | [] => ret tt
  | x :: xs' => body x ;;; for_each xs' body
  end.

(** [float(text)] where the code calls it. *)
Definition float (text : string) : M number :=
  match py_float text with
  | Some a => ret a
  | None => raise (ValueError ("could not convert string to float: " ++ text))
  end.

(** The body of [for line in f]. *)
Definition load_line (line : string) : M unit :=
  let line := strip line in
  if is_empty line then ret tt
  else
    let line_parts := split "|" line in
    let tag := nth 0 line_parts EmptyString in
    if String.eqb tag "Income" then
      if negb (Nat.eqb (length line_parts) 3) then
        raise (ValueError ("Bad Income line: " ++ line))
      else
        a <- float (nth 2 line_parts EmptyString) ;;
        update_self (fun d =>
          set_incomes (incomes d ++
            [{| source := nth 1 line_parts EmptyString; income_amount := a |}]) d)
    else if String.eqb tag "Expense" then
      if negb (Nat.eqb (length line_parts) 5) then
        raise (ValueError ("Bad Expense line: " ++ line))
      else
        a <- float (nth 3 line_parts EmptyString) ;;
        update_self (fun d =>
          set_expenses (expenses d ++
            [{| description := nth 1 line_parts EmptyString;
                category := nth 2 line_parts EmptyString;
                expense_amount := a;
                date := nth 4 line_parts EmptyString |}]) d)
    else raise (ValueError ("Unknown line format: " ++ line)).

(** [json.load(f)] on [finance_data.json] *)
Definition json_load : M json_data :=
  w <- get ;;
  match finance_data_json (disk w) with
  | None => raise FileNotFoundError
  | Some NotJson => raise JSONDecodeError
  | Some (Json data) => ret data
  end.

(** [data[key]] *)
Definition getitem {A} (key : string) (field : option A) : M A :=
  match field with
  | Some v => ret v
  | None => raise (KeyError key)
  end.

(** [value or []] *)
Definition or_empty {A} (value : json_list A) : list A :=
  match value with
  | JNull => []
  | JArray items => items
  end.

(** [open("finance_data.txt", "r")], read in text mode *)
Definition open_txt : M string :=
  w <- get ;;
  match finance_data_txt (disk w) with
  | None => raise FileNotFoundError
  | Some text => ret (universal_newlines text)
  end.

Definition missing_or_undecodable (e : exn) : bool :=
  match e with
  | FileNotFoundError | JSONDecodeError => true
  | _ => false
  end.

(** The [try] block of [load_from_file]: the JSON file. *)
Definition load_json : M unit :=
  data <- json_load ;;
  e <- getitem "expenses" (data_expenses data) ;;
  update_self (set_expenses (or_empty e)) ;;;
  i <- getitem "incomes" (data_incomes data) ;;
  update_self (set_incomes (or_empty i)).

(** The [except] block of [load_from_file]: the text file, line by line. *)
Definition load_txt : M unit :=
  text <- open_txt ;;
  for_each (readlines text) load_line.

Definition load_from_file : M unit :=
  try_except load_json missing_or_undecodable load_txt.

(** The object that [__init__] sets up before it loads. *)
Definition fresh (autosave : bool) : DataHandler :=
  {| autosave := autosave; incomes := []; expenses := []; files_loaded := true |}.

(** The object after the [except Exception] block of [__init__]. *)
Definition reset (d : DataHandler) : DataHandler :=
  set_files_loaded false (set_expenses [] (set_incomes [] d)).

(** [DataHandler(autosave)]: a fresh object, then the load with every
    [Exception] absorbed. *)
Definition __init__ (autosave : bool) : M unit :=
  update_self (fun _ => fresh autosave) ;;;
  try_except load_from_file (fun _ => true) (update_self reset).

(** [parse_float(text, field_name)] *)
Definition parse_float (text field_name : string) : Result number :=
  match py_float text with
  | None => Raise (ValueError (field_name ++ " must be a number."))
  | Some value =>
      if lt0 value then Raise (ValueError (field_name ++ " can't be negative."))
      else Ok value
  end.

End Methods.

(** * The window: [FinanceManager]

    The widgets are read as the data they hold: a [StringVar] is its text,
    a [Listbox] its items and the indices selected in it, and the message
    boxes shown are kept in a list, oldest first. Layout is left out. *)

Module FinanceManager.

(** [tk.Listbox] *)
Record Listbox := { items : list string; curselection : list nat }.

(** [listbox.delete(0, tk.END)]: no item is left, and none selected. *)
Definition listbox_clear (l : Listbox) : Listbox :=
  {| items := []; curselection := [] |}.

(** [listbox.insert(tk.END, text)] *)
Definition listbox_insert_end (l : Listbox) (text : string) : Listbox :=
  {| items := items l ++ [text]; curselection := curselection l |}.

(** The variables and lists of the window. The two amount entries are
    [self.income_amount] and [self.expense_amount] in the source. *)
Record Widgets := {
  income_source : string;
  income_amount_entry : string;
  expense_description : string;
  expense_category : string;
  expense_amount_entry : string;
  expense_date : string;
  income_list : Listbox;
  expense_list : Listbox;
  total_income_var : string;
  total_expenses_var : string;
  balance_var : string;
  errors_shown : list (string * string)
}.

Definition expense_categories : list string :=
  ["Housing"; "Utilities"; "Food"; "Transportation"; "Healthcare"; "Insurance";
   "Personal & Lifestyle"; "Debt & Financial"; "Entertainment & Recreation";
   "Savings & Investments"]%string.

Section Window.
Context `{Num : Number}.

(** [format(x, ".2f")], as the f-strings of the window apply it. *)
Variable format_2f : number -> string.

(** [self.data] with the files and the clock, and the widgets. *)
Record App := { world : World; ui : Widgets }.

Definition G (A : Type) : Type := App -> Result A * App.

Definition gret {A} (a : A) : G A := fun s => (Ok a, s).

Definition graise {A} (e : exn) : G A := fun s => (Raise e, s).

Definition gbind {A B} (m : G A) (k : A -> G B) : G B :=
  fun s =>
    match m s with
    | (Ok a, s') => k a s'
    | (Raise e, s') => (Raise e, s')
    end.

Local Notation "x <~ m ;; k" := (gbind m (fun x => k))
  (at level 90, m at level 89, right associativity).
Local Notation "m ;;~ k" := (gbind m (fun _ => k))
  (at level 90, right associativity).

(** A method of [self.data], run from the window. *)
Definition on_data {A} (m : M A) : G A :=
  fun s =>
    let (r, w') := m (world s) in
    (r, {| world := w'; ui := ui s |}).

Definition widgets : G Widgets := fun s => (Ok (ui s), s).

Definition ledger : G DataHandler := fun s => (Ok (self (world s)), s).

Definition clock : G Date := fun s => (Ok (today (world s)), s).

Definition update_ui (f : Widgets -> Widgets) : G unit :=
  fun s => (Ok tt, {| world := world s; ui := f (ui s) |}).

Definition glift {A} (r : Result A) : G A := fun s => (r, s).

(** [try: body / except ValueError as e: handler(str(e))]. Of Python's
    [ValueError]s this is the one the handlers can meet: nothing in their
    bodies decodes JSON. *)
Definition except_ValueError (body : G unit) (handler : string -> G unit) : G unit :=
  fun s =>
    match body s with
    | (Raise (ValueError msg), s') => handler msg s'
    | other => other
    end.

(** [messagebox.showerror(title, message)] *)
Definition showerror (title message : string) : G unit :=
  update_ui (fun u =>
    {| income_source := income_source u;
       income_amount_entry := income_amount_entry u;
       expense_description := expense_description u;
       expense_category := expense_category u;
       expense_amount_entry := expense_amount_entry u;
       expense_date := expense_date u;
       income_list := income_list u;
       expense_list := expense_list u;
       total_income_var := total_income_var u;
       total_expenses_var := total_expenses_var u;
       balance_var := balance_var u;
       errors_shown := errors_shown u ++ [(title, message)] |}).

Definition set_income_form (source amount : string) (u : Widgets) : Widgets :=
  {| income_source := source;
     income_amount_entry := amount;
     expense_description := expense_description u;
     expense_category := expense_category u;
     expense_amount_entry := expense_amount_entry u;
     expense_date := expense_date u;
     income_list := income_list u;
     expense_list := expense_list u;
     total_income_var := total_income_var u;
     total_expenses_var := total_expenses_var u;
     balance_var := balance_var u;
     errors_shown := errors_shown u |}.

Definition set_expense_form (description category amount date : string)
    (u : Widgets) : Widgets :=
  {| income_source := income_source u;
     income_amount_entry := income_amount_entry u;
     expense_description := description;
     expense_category := category;
     expense_amount_entry := amount;
     expense_date := date;
     income_list := income_list u;
     expense_list := expense_list u;
     total_income_var := total_income_var u;
     total_expenses_var := total_expenses_var u;
     balance_var := balance_var u;
     errors_shown := errors_shown u |}.

Definition set_income_list (l : Listbox) (u : Widgets) : Widgets :=
  {| income_source := income_source u;
     income_amount_entry := income_amount_entry u;
     expense_description := expense_description u;
     expense_category := expense_category u;
     expense_amount_entry := expense_amount_entry u;
     expense_date := expense_date u;
     income_list := l;
     expense_list := expense_list u;
     total_income_var := total_income_var u;
     total_expenses_var := total_expenses_var u;
     balance_var := balance_var u;
     errors_shown := errors_shown u |}.

Definition set_expense_list (l : Listbox) (u : Widgets) : Widgets :=
  {| income_source := income_source u;
     income_amount_entry := income_amount_entry u;
     expense_description := expense_description u;
     expense_category := expense_category u;
     expense_amount_entry := expense_amount_entry u;
     expense_date := expense_date u;
     income_list := income_list u;
     expense_list := l;
     total_income_var := total_income_var u;
     total_expenses_var := total_expenses_var u;
     balance_var := balance_var u;
     errors_shown := errors_shown u |}.

Definition set_totals (income expenses balance : string) (u : Widgets) : Widgets :=
  {| income_source := income_source u;
     income_amount_entry := income_amount_entry u;
     expense_description := expense_description u;
     expense_category := expense_category u;
     expense_amount_entry := expense_amount_entry u;
     expense_date := expense_date u;
     income_list := income_list u;
     expense_list := expense_list u;
     total_income_var := income;
     total_expenses_var := expenses;
     balance_var := balance;
     errors_shown := errors_shown u |}.

(** [f"${x:.2f}"] *)
Definition dollars (x : number) : string := ("$" ++ format_2f x)%string.

(** [_process_totals] *)
Definition _process_totals : G unit :=
  d <~ ledger ;;
  update_ui (set_totals (dollars (total_income d)) (dollars (total_expenses d))
               (dollars (balance d))).

Definition income_header : string := "Income Source  |  Amount".

Definition expense_header : string := "Date  |  Description  |  Category  |  Amount".

(** [f"{i['source']}  |  ${i['amount']:.2f}"] *)
Definition income_row (i : Income) : string :=
  (source i ++ "  |  " ++ dollars (income_amount i))%string.

(** [f"{e['date']}  |  {e['description']}  |  {e['category']}  |  ${e['amount']:.2f}"] *)
Definition expense_row (e : Expense) : string :=
  (date e ++ "  |  " ++ description e ++ "  |  " ++ category e ++ "  |  "
   ++ dollars (expense_amount e))%string.

(** [_process_income_change]: the list emptied, then the header and one
    row for each income inserted at the end. *)
Definition _process_income_change : G unit :=
  update_ui (fun u => set_income_list (listbox_clear (income_list u)) u) ;;~
  update_ui (fun u =>
    set_income_list (listbox_insert_end (income_list u) income_header) u) ;;~
  d <~ ledger ;;
  update_ui (fun u =>
    set_income_list
      (fold_left (fun l i => listbox_insert_end l (income_row i)) (incomes d)
         (income_list u)) u) ;;~
  _process_totals.

(** [_process_expense_change] *)
Definition _process_expense_change : G unit :=
  update_ui (fun u => set_expense_list (listbox_clear (expense_list u)) u) ;;~
  update_ui (fun u =>
    set_expense_list (listbox_insert_end (expense_list u) expense_header) u) ;;~
  d <~ ledger ;;
  update_ui (fun u =>
    set_expense_list
      (fold_left (fun l e => listbox_insert_end l (expense_row e)) (expenses d)
         (expense_list u)) u) ;;~
  _process_totals.

(** [_reset_income_form] *)
Definition _reset_income_form : G unit :=
  update_ui (set_income_form EmptyString EmptyString).

(** [_reset_expense_form] *)
Definition _reset_expense_form : G unit :=
  t <~ clock ;;
  update_ui (set_expense_form EmptyString (nth 0 expense_categories EmptyString)
               EmptyString (strftime t)).

(** [FinanceManager.add_income], the command of the "Add Income" button. *)
Definition add_income : G unit :=
  except_ValueError
    (u <~ widgets ;;
     let source := strip (income_source u) in
     if is_empty source then graise (ValueError "Source is required.")
     else
       let amount := strip (income_amount_entry u) in
       parsed_amount <~ glift (parse_float amount "Amount") ;;
       on_data (add_income source parsed_amount) ;;~
       _reset_income_form ;;~
       _process_income_change)
    (showerror "Income Error").

(** [FinanceManager.add_expense], the command of the "Add Expense" button. *)
Definition add_expense : G unit :=
  except_ValueError
    (u <~ widgets ;;
     let description := strip (expense_description u) in
     let category := strip (expense_category u) in
     if is_empty description then graise (ValueError "Description is required.")
     else if is_empty category then graise (ValueError "Category is required.")
     else
       amount <~ glift (parse_float (strip (expense_amount_entry u)) "Amount") ;;
       t <~ clock ;;
       date_str <~ glift (parse_date t (expense_date u)) ;;
       on_data (add_expense description category amount date_str) ;;~
       _reset_expense_form ;;~
       _process_expense_change)
    (showerror "Expense Error").

(** [FinanceManager.delete_income], the command of the income "Delete"
    button: row 0 is the header. *)
Definition delete_income : G unit :=
  u <~ widgets ;;
  match curselection (income_list u) with
  | [] => gret tt
  | sel0 :: _ =>
      if Nat.eqb sel0 0 then gret tt
      else
        on_data (delete_income (Z.of_nat sel0 - 1)) ;;~
        _process_income_change
  end.

(** [FinanceManager.delete_expense] *)
Definition delete_expense : G unit :=
  u <~ widgets ;;
  match curselection (expense_list u) with
  | [] => gret tt
  | sel0 :: _ =>
      if Nat.eqb sel0 0 then gret tt
      else
        on_data (delete_expense (Z.of_nat sel0 - 1)) ;;~
        _process_expense_change
  end.

(** The widgets as [__init__] and [_build_ui] create them, before the
    lists are filled. *)
Definition built_widgets (t : Date) : Widgets :=
  {| income_source := EmptyString;
     income_amount_entry := EmptyString;
     expense_description := EmptyString;
     expense_category := nth 0 expense_categories EmptyString;
     expense_amount_entry := EmptyString;
     expense_date := strftime t;
     income_list := {| items := []; curselection := [] |};
     expense_list := {| items := []; curselection := [] |};
     total_income_var := "0.00";
     total_expenses_var := "0.00";
     balance_var := "0.00";
     errors_shown := [] |}.

(** [FinanceManager()]: the ledger loaded with [DataHandler()], the
    failure of the load reported, the widgets built, the lists filled. *)
Definition __init__ (w : World) : Result unit * App :=
  (on_data (__init__ true) ;;~
   d <~ ledger ;;
   (if negb (files_loaded d) then
      showerror "File loading error" "Failed to load incomes and expenses from file"
    else gret tt) ;;~
   _process_income_change ;;~
   _process_expense_change)
    {| world := w; ui := built_widgets (today w) |}.

End Window.

End FinanceManager.

(** * The vocabulary of the specification

    What the claims speak of, written down from the specification: the
    invariants of the data model, a malformed line of the text file, and
    the date texts. *)

Section Vocabulary.
Context `{Num : Number}.

(** ** The invariants of the data model *)

Definition nonblank (s : string) : bool := negb (is_empty (strip s)).

Definition date_parses (s : string) : bool :=
  match strptime s with Some _ => true | None => false end.

Definition valid_income (i : Income) : bool :=
  ge0 (income_amount i) && nonblank (source i).

Definition valid_expense (e : Expense) : bool :=
  ge0 (expense_amount e) && nonblank (description e) && nonblank (category e)
  && date_parses (date e).

Definition invariant (d : DataHandler) : bool :=
  forallb valid_income (incomes d) && forallb valid_expense (expenses d).

(** A line of the text file with an unknown tag, or with the wrong number
    of fields for its tag. *)
Definition malformed_line (line : string) : bool :=
  let line := strip line in
  let line_parts := split "|" line in
  let tag := nth 0 line_parts EmptyString in
  negb (is_empty line)
  && (if String.eqb tag "Income" then negb (Nat.eqb (length line_parts) 3)
      else if String.eqb tag "Expense" then negb (Nat.eqb (length line_parts) 5)
      else true).

End Vocabulary.

(** ** The sum of a sequence of amounts *)

(** Over Python's [int]: the sum of the arithmetic, no order involved. *)
Fixpoint int_sum (xs : list Z) : Z :=
  match xs with
  | [] => 0
  | x :: r => x + int_sum r
  end.

(** ** Positions in a sequence *)

(** The zero-based position that an index in [-n .. n-1] denotes in a
    sequence of length [n]: the index itself, or [n + index] when it is
    negative. *)
Definition position (n index : Z) : nat :=
  Z.to_nat (if index <? 0 then index + n else index).

(** ** The date texts, said without the matcher

    The language of a regular expression, and the texts that the three
    directives denote, spelled out: what "%Y-%m-%d" means to [strptime]. *)

Inductive matches : regex -> string -> Prop :=
| matches_lit c : matches (Lit c) (String c EmptyString)
| matches_range lo hi c :
    between lo hi c = true -> matches (Range lo hi) (String c EmptyString)
| matches_digit c : isdigit c = true -> matches Digit (String c EmptyString)
| matches_seq r1 r2 s1 s2 :
    matches r1 s1 -> matches r2 s2 -> matches (Seq r1 r2) (s1 ++ s2)
| matches_alt_l r1 r2 s : matches r1 s -> matches (Alt r1 r2) s
| matches_alt_r r1 r2 s : matches r2 s -> matches (Alt r1 r2) s.

(** Four digits. *)
Inductive year_text : string -> Prop :=
| year_dddd a b c d :
    isdigit a = true -> isdigit b = true -> isdigit c = true -> isdigit d = true ->
    year_text (String a (String b (String c (String d EmptyString)))).

(** [1]..[9], [01]..[09], [10]..[12] *)
Inductive month_text : string -> Prop :=
| month_d c : between "1" "9" c = true -> month_text (String c EmptyString)
| month_0d c : between "1" "9" c = true -> month_text (String "0" (String c EmptyString))
| month_1d c : between "0" "2" c = true -> month_text (String "1" (String c EmptyString)).

(** [1]..[9], [01]..[09], [10]..[29], [30], [31], and a blank before [1]..[9] *)
Inductive day_text : string -> Prop :=
| day_d c : between "1" "9" c = true -> day_text (String c EmptyString)
| day_blank_d c : between "1" "9" c = true -> day_text (String " " (String c EmptyString))
| day_0d c : between "1" "9" c = true -> day_text (String "0" (String c EmptyString))
| day_dd c1 c2 :
    between "1" "2" c1 = true -> isdigit c2 = true ->
    day_text (String c1 (String c2 EmptyString))
| day_3d c : between "0" "1" c = true -> day_text (String "3" (String c EmptyString)).

(** A year, a month and a day text joined by hyphens, whose numbers are a
    date of the calendar. *)
Definition date_text (s : string) : Prop :=
  exists y m d,
    year_text y /\ month_text m /\ day_text d
    /\ s = (y ++ "-" ++ m ++ "-" ++ d)%string
    /\ _check_date_fields
         {| year := py_int y; month := py_int m; day := py_int d |} = true.

(** The 4-2-2 digit grouping of [YYYY-MM-DD]. *)
Definition yyyy_mm_dd_grouping (s : string) : bool :=
  match s with
  | String y1 (String y2 (String y3 (String y4 (String h1
      (String m1 (String m2 (String h2 (String d1 (String d2 EmptyString))))))))) =>
      isdigit y1 && isdigit y2 && isdigit y3 && isdigit y4
      && Ascii.eqb h1 "-" && isdigit m1 && isdigit m2
      && Ascii.eqb h2 "-" && isdigit d1 && isdigit d2
  | _ => false
  end.

(** The fields of a text in the 4-2-2 grouping. *)
Definition grouped_fields (s : string) : Date :=
  {| year := py_int (substring 0 4 s);
     month := py_int (substring 5 2 s);
     day := py_int (substring 8 2 s) |}.

(** * The vocabulary of the further properties *)

(** [c in s] *)
Fixpoint has_char (c : ascii) (s : string) : bool :=
  match s with
  | EmptyString => false
  | String x r => Ascii.eqb x c || has_char c r
  end.

(** A text that stays within one line of a file. *)
Definition one_line (s : string) : bool :=
  negb (has_char CR s) && negb (has_char LF s).

(** A text that stays within one field of one line. *)
Definition plain (s : string) : bool :=
  negb (has_char "|" s) && one_line s.

Section MoreVocabulary.
Context `{Num : Number}.

(** The records that the text file gives back as they are. *)
Definition plain_income (i : Income) : Prop :=
  plain (source i) = true
  /\ plain (py_format (income_amount i)) = true
  /\ rstrip (py_format (income_amount i)) = py_format (income_amount i)
  /\ py_float (py_format (income_amount i)) = Some (income_amount i).

Definition plain_expense (e : Expense) : Prop :=
  plain (description e) = true
  /\ plain (category e) = true
  /\ plain (py_format (expense_amount e)) = true
  /\ py_float (py_format (expense_amount e)) = Some (expense_amount e)
  /\ plain (date e) = true
  /\ rstrip (date e) = date e.

(** The records whose line in the text file is one line. *)
Definition one_line_income (i : Income) : Prop :=
  one_line (source i) = true /\ one_line (py_format (income_amount i)) = true.

Definition one_line_expense (e : Expense) : Prop :=
  one_line (description e) = true /\ one_line (category e) = true
  /\ one_line (py_format (expense_amount e)) = true /\ one_line (date e) = true.

(** A line of a file: a text without line feed, and the line feed. *)
Definition is_line (l : string) : Prop :=
  exists body, l = (body ++ newline)%string /\ has_char LF body = false.

(** The text that [save_to_file] writes for a ledger. *)
Definition mirror_text (d : DataHandler) : string :=
  (writelines (map expense_line (expenses d))
   ++ writelines (map income_line (incomes d)))%string.

(** A new ledger built from the files of [w], whatever object the
    constructor starts from and whatever the day, has the sequences of [w]. *)
Definition reloads (a : bool) (w : World) : Prop :=
  forall d0 t0, exists w2,
    __init__ a {| self := d0; disk := disk w; today := t0 |} = (Ok tt, w2)
    /\ incomes (self w2) = incomes (self w)
    /\ expenses (self w2) = expenses (self w)
    /\ files_loaded (self w2) = true.

End MoreVocabulary.


Section WindowVocabulary.
Context `{Num : Number}.
Variable format_2f : number -> string.

(** The lists and the totals of the window are those of the ledger. *)
Definition shows_ledger (app : FinanceManager.App) : Prop :=
  let d := self (FinanceManager.world app) in
  let u := FinanceManager.ui app in
  FinanceManager.items (FinanceManager.income_list u)
  = FinanceManager.income_header :: map (FinanceManager.income_row format_2f) (incomes d)
  /\ FinanceManager.items (FinanceManager.expense_list u)
     = FinanceManager.expense_header
       :: map (FinanceManager.expense_row format_2f) (expenses d)
  /\ FinanceManager.total_income_var u
     = FinanceManager.dollars format_2f (total_income d)
  /\ FinanceManager.total_expenses_var u
     = FinanceManager.dollars format_2f (total_expenses d)
  /\ FinanceManager.balance_var u = FinanceManager.dollars format_2f (balance d).

(** The window after [_process_income_change]. *)
Definition income_refreshed (app : FinanceManager.App) : FinanceManager.App :=
  let d := self (FinanceManager.world app) in
  {| FinanceManager.world := FinanceManager.world app;
     FinanceManager.ui :=
       FinanceManager.set_totals
         (FinanceManager.dollars format_2f (total_income d))
         (FinanceManager.dollars format_2f (total_expenses d))
         (FinanceManager.dollars format_2f (balance d))
         (FinanceManager.set_income_list
            {| FinanceManager.items :=
                 FinanceManager.income_header
                 :: map (FinanceManager.income_row format_2f) (incomes d);
               FinanceManager.curselection := [] |}
            (FinanceManager.ui app)) |}.

(** The window after [_process_expense_change]. *)
Definition expense_refreshed (app : FinanceManager.App) : FinanceManager.App :=
  let d := self (FinanceManager.world app) in
  {| FinanceManager.world := FinanceManager.world app;
     FinanceManager.ui :=
       FinanceManager.set_totals
         (FinanceManager.dollars format_2f (total_income d))
         (FinanceManager.dollars format_2f (total_expenses d))
         (FinanceManager.dollars format_2f (balance d))
         (FinanceManager.set_expense_list
            {| FinanceManager.items :=
                 FinanceManager.expense_header
                 :: map (FinanceManager.expense_row format_2f) (expenses d);
               FinanceManager.curselection := [] |}
            (FinanceManager.ui app)) |}.

(** The window after a message box. *)
Definition with_error (title message : string) (app : FinanceManager.App)
    : FinanceManager.App :=
  snd (FinanceManager.showerror title message app).

(** What a handler leaves: the window it found, perhaps with one more
    message box, or a window refreshed over a ledger that differs in the
    one sequence. *)
Inductive income_step app : Result unit * FinanceManager.App -> Prop :=
| income_step_same r : income_step app (r, app)
| income_step_error title message :
    income_step app (Ok tt, with_error title message app)
| income_step_refreshed w' u' :
    expenses (self w') = expenses (self (FinanceManager.world app)) ->
    FinanceManager.expense_list u'
    = FinanceManager.expense_list (FinanceManager.ui app) ->
    income_step app
      (Ok tt, income_refreshed
                {| FinanceManager.world := w'; FinanceManager.ui := u' |}).

Inductive expense_step app : Result unit * FinanceManager.App -> Prop :=
| expense_step_same r : expense_step app (r, app)
| expense_step_error title message :
    expense_step app (Ok tt, with_error title message app)
| expense_step_refreshed w' u' :
    incomes (self w') = incomes (self (FinanceManager.world app)) ->
    FinanceManager.income_list u'
    = FinanceManager.income_list (FinanceManager.ui app) ->
    expense_step app
      (Ok tt, expense_refreshed
                {| FinanceManager.world := w'; FinanceManager.ui := u' |}).

End WindowVocabulary.

(** * Sample states, over Python's [int] *)

Definition sample_today : Date := {| year := 2026; month := 3; day := 7 |}.

Definition no_files : @Files int_Number :=
  {| finance_data_json := None; finance_data_txt := None |}.

(** The ledger of the test suite: one income, one expense. *)
Definition sample_handler (autosave : bool) : @DataHandler int_Number :=
  {| autosave := autosave;
     incomes := [{| source := "job"; income_amount := 1123 |}];
     expenses := [{| description := "car lease"; category := "transportation";
                     expense_amount := 500; date := "2024-01-20" |}];
     files_loaded := true |}.

Definition sample_world (autosave : bool) : @World int_Number :=
  {| self := sample_handler autosave; disk := no_files; today := sample_today |}.

(** Two incomes, to delete from. *)
Definition two_incomes_world : @World int_Number :=
  {| self := {| autosave := false;
                incomes := [{| source := "job"; income_amount := 1123 |};
                            {| source := "stocks"; income_amount := 1000 |}];
                expenses := [];
                files_loaded := true |};
     disk := no_files; today := sample_today |}.

(** A JSON file that holds the incomes and no ["expenses"] key. *)
Definition absent_expenses_world : @World int_Number :=
  {| self := fresh true;
     disk := {| finance_data_json :=
                  Some (Json {| data_incomes :=
                                  Some (JArray [{| source := "job";
                                                   income_amount := 1123 |}]);
                                data_expenses := None |});
                finance_data_txt := None |};
     today := sample_today |}.

(** A JSON file whose records break every rule of the data model. *)
Definition invalid_json_world : @World int_Number :=
  {| self := fresh true;
     disk := {| finance_data_json :=
                  Some (Json {| data_incomes :=
                                  Some (JArray [{| source := "  ";
                                                   income_amount := -5 |}]);
                                data_expenses :=
                                  Some (JArray [{| description := EmptyString;
                                                   category := "food";
                                                   expense_amount := 3;
                                                   date := "not-a-date" |}]) |});
                finance_data_txt := None |};
     today := sample_today |}.

(** No JSON file, and a text file with a negative income from a blank source. *)
Definition invalid_txt_world : @World int_Number :=
  {| self := fresh true;
     disk := {| finance_data_json := None;
                finance_data_txt := Some ("Income| |-5" ++ newline)%string |};
     today := sample_today |}.

(** A JSON file with both keys, the expenses [null]. *)
Definition null_expenses_world : @World int_Number :=
  {| self := fresh true;
     disk := {| finance_data_json :=
                  Some (Json {| data_incomes :=
                                  Some (JArray [{| source := "job";
                                                   income_amount := 1123 |}]);
                                data_expenses := Some JNull |});
                finance_data_txt := None |};
     today := sample_today |}.

(** No JSON file, and a text file whose second line has an unknown tag. *)
Definition unknown_tag_world : @World int_Number :=
  {| self := fresh true;
     disk := {| finance_data_json := None;
                finance_data_txt :=
                  Some ("Income|job|1123" ++ newline ++ "Refund|shop|20" ++ newline)%string |};
     today := sample_today |}.

(** An empty ledger in test mode, over the numbers with a NaN. *)
Definition nan_world : @World nan_Number :=
  {| self := @fresh nan_Number false;
     disk := {| finance_data_json := None; finance_data_txt := None |};
     today := sample_today |}.

(** An income whose source holds the separator of the text file. *)
Definition separator_world : @World int_Number :=
  {| self := {| autosave := true;
                incomes := [{| source := "tips|cash"; income_amount := 40 |}];
                expenses := [];
                files_loaded := true |};
     disk := no_files; today := sample_today |}.

(** [format(x, ".2f")] of an [int]. *)
Definition int_format_2f (x : @number int_Number) : string :=
  (py_format x ++ ".00")%string.

(** A window over the ledger of the test suite: both forms filled in, and
    the first record selected in each list. *)
Definition sample_app : @FinanceManager.App int_Number :=
  {| FinanceManager.world := sample_world true;
     FinanceManager.ui :=
       {| FinanceManager.income_source := " bonus ";
          FinanceManager.income_amount_entry := "250";
          FinanceManager.expense_description := "rent";
          FinanceManager.expense_category := "Housing";
          FinanceManager.expense_amount_entry := " 900";
          FinanceManager.expense_date := "2026-03-01";
          FinanceManager.income_list :=
            {| FinanceManager.items :=
                 ["Income Source  |  Amount"; "job  |  $1123.00"]%string;
               FinanceManager.curselection := [1%nat] |};
          FinanceManager.expense_list :=
            {| FinanceManager.items :=
                 ["Date  |  Description  |  Category  |  Amount";
                  "2024-01-20  |  car lease  |  transportation  |  $500.00"]%string;
               FinanceManager.curselection := [1%nat] |};
          FinanceManager.total_income_var := "$1123.00";
          FinanceManager.total_expenses_var := "$500.00";
          FinanceManager.balance_var := "$623.00";
          FinanceManager.errors_shown := [] |} |}.

(** * Properties *)

Section Properties.
Context `{Num : Number}.

Implicit Types (w : World).

Example parse_date_test :
  parse_date {| year := 2026; month := 3; day := 7 |} "2024-01-20" = Ok "2024-01-20"%string.
Proof. reflexivity. Qed.

Example parse_date_invalid_test :
  parse_date {| year := 2026; month := 3; day := 7 |} "20222-123-123"
  = Raise (ValueError date_format_message).
Proof. reflexivity. Qed.


(** ** How the methods run *)

Lemma save_to_file_run w :
  exists fs, save_to_file w = (Ok tt, with_disk fs w)
    /\ (autosave (self w) = false -> fs = disk w).
Proof.
  unfold save_to_file, bind, get.
  destruct (autosave (self w)) eqn:Ha; simpl.
  - eexists; split; [reflexivity | discriminate].
  - exists (disk w). split; [| reflexivity].
    unfold ret, with_disk. destruct w; reflexivity.
Qed.

Lemma save_to_file_self w : self (snd (save_to_file w)) = self w.
Proof. destruct (save_to_file_run w) as (fs & -> & _). reflexivity. Qed.

Lemma save_to_file_ok w : fst (save_to_file w) = Ok tt.
Proof. destruct (save_to_file_run w) as (fs & -> & _). reflexivity. Qed.

Lemma add_income_accepts w source amount :
  lt0 amount = false -> is_empty (strip source) = false ->
  add_income source amount w
  = save_to_file (with_self (appended_income source amount (self w)) w).
Proof. intros Hlt Hsrc. unfold add_income. rewrite Hlt, Hsrc. reflexivity. Qed.

Lemma add_income_rejects w source amount :
  lt0 amount = true \/ is_empty (strip source) = true ->
  exists msg, add_income source amount w = (Raise (ValueError msg), w).
Proof.
  intros H. unfold add_income.
  destruct (lt0 amount); [eexists; reflexivity |].
  destruct H as [H | ->]; [discriminate | eexists; reflexivity].
Qed.

Lemma add_expense_accepts w description category amount date parsed :
  is_empty (strip category) = false -> is_empty (strip description) = false ->
  lt0 amount = false -> parse_date (today w) date = Ok parsed ->
  add_expense description category amount date w
  = save_to_file
      (with_self (appended_expense description category amount parsed (self w)) w).
Proof.
  intros Hc Hd Hlt Hp. unfold add_expense. rewrite Hc, Hd, Hlt.
  unfold bind, get, lift. rewrite Hp. reflexivity.
Qed.

Lemma add_expense_rejects w description category amount date :
  is_empty (strip category) = true \/ is_empty (strip description) = true
  \/ lt0 amount = true \/ (exists e, parse_date (today w) date = Raise e) ->
  exists e, add_expense description category amount date w = (Raise e, w)
    /\ exists msg, e = ValueError msg.
Proof.
  intros H. unfold add_expense.
  destruct (is_empty (strip category)); [eexists; split; [reflexivity | eauto] |].
  destruct (is_empty (strip description)); [eexists; split; [reflexivity | eauto] |].
  destruct (lt0 amount); [eexists; split; [reflexivity | eauto] |].
  destruct H as [H | [H | [H | [e H]]]]; try discriminate.
  unfold bind, get, lift. rewrite H. eexists; split; [reflexivity |].
  unfold parse_date in H.
  destruct (is_empty (strip date)); [discriminate |].
  destruct (strptime (strip date)); [discriminate |].
  injection H as <-. eauto.
Qed.

Lemma py_sum_snoc (xs : list number) (a : number) :
  py_sum (xs ++ [a]) = add (py_sum xs) a.
Proof. unfold py_sum. rewrite fold_left_app. reflexivity. Qed.

(** ** Adding records *)

(** C1. For a source that is non-blank after trimming and an amount >= 0,
    [add_income] returns normally, the income sequence is the old one with
    the single record [{source, amount}] appended, the expense sequence is
    untouched and [total_income] is the old total plus the amount.
    Likewise for a valid expense: one record appended whose date is the
    parsed date, incomes untouched, [total_expenses] grown by the amount. *)
Theorem add_appends_one_record :
  (forall w source amount,
     is_empty (strip source) = false -> ge0 amount = true ->
     exists w',
       add_income source amount w = (Ok tt, w')
       /\ incomes (self w')
          = incomes (self w) ++ [{| source := source; income_amount := amount |}]
       /\ expenses (self w') = expenses (self w)
       /\ total_income (self w') = add (total_income (self w)) amount)
  /\
  (forall w description category amount date parsed,
     is_empty (strip description) = false ->
     is_empty (strip category) = false ->
     ge0 amount = true ->
     parse_date (today w) date = Ok parsed ->
     exists w',
       add_expense description category amount date w = (Ok tt, w')
       /\ expenses (self w')
          = expenses (self w) ++
            [{| description := description; category := category;
                expense_amount := amount; date := parsed |}]
       /\ incomes (self w') = incomes (self w)
       /\ total_expenses (self w') = add (total_expenses (self w)) amount).
Proof.
  split.
  - intros w source amount Hsrc Hge.
    rewrite (add_income_accepts w source amount (ge0_not_lt0 _ Hge) Hsrc).
    destruct (save_to_file_run (with_self (appended_income source amount (self w)) w))
      as (fs & -> & _).
    eexists; split; [reflexivity |]. simpl.
    repeat split. unfold total_income. simpl.
    rewrite map_app. apply py_sum_snoc.
  - intros w description category amount date parsed Hd Hc Hge Hp.
    rewrite (add_expense_accepts w _ _ _ _ parsed Hc Hd (ge0_not_lt0 _ Hge) Hp).
    destruct (save_to_file_run
      (with_self (appended_expense description category amount parsed (self w)) w))
      as (fs & -> & _).
    eexists; split; [reflexivity |]. simpl.
    repeat split. unfold total_expenses. simpl.
    rewrite map_app. apply py_sum_snoc.
Qed.

(** C2. [add_income] raises the validation error ([ValueError]) exactly
    when the amount is negative or the source is blank after trimming;
    [add_expense] exactly when the description or the category is blank,
    the amount is negative, or the date text is not empty after trimming
    and [strptime] rejects it. A call that raises leaves the object and
    the files as they were. *)
Theorem add_raises_iff_invalid :
  (forall w source amount,
     ((exists msg, fst (add_income source amount w) = Raise (ValueError msg))
      <-> lt0 amount = true \/ is_empty (strip source) = true)
     /\ (forall e, fst (add_income source amount w) = Raise e ->
                   snd (add_income source amount w) = w))
  /\
  (forall w description category amount date,
     ((exists msg,
         fst (add_expense description category amount date w)
         = Raise (ValueError msg))
      <-> is_empty (strip description) = true
          \/ is_empty (strip category) = true
          \/ lt0 amount = true
          \/ (is_empty (strip date) = false /\ strptime (strip date) = None))
     /\ (forall e, fst (add_expense description category amount date w) = Raise e ->
                   snd (add_expense description category amount date w) = w)).
Proof.
  split.
  - intros w source amount.
    destruct (lt0 amount) eqn:Hlt.
    { destruct (add_income_rejects w source amount (or_introl Hlt)) as [msg ->].
      simpl. split; [split; eauto | reflexivity]. }
    destruct (is_empty (strip source)) eqn:Hsrc.
    { destruct (add_income_rejects w source amount (or_intror Hsrc)) as [msg ->].
      simpl. split; [split; eauto | reflexivity]. }
    rewrite (add_income_accepts w source amount Hlt Hsrc).
    rewrite save_to_file_ok. split.
    + split; [intros [msg H]; discriminate | intros [H | H]; discriminate].
    + intros e H; discriminate.
  - intros w description category amount date.
    assert (Hrej :
      is_empty (strip category) = true \/ is_empty (strip description) = true
      \/ lt0 amount = true \/ (exists e, parse_date (today w) date = Raise e) ->
      (exists msg, fst (add_expense description category amount date w)
                   = Raise (ValueError msg))
      /\ (forall e, fst (add_expense description category amount date w) = Raise e ->
                    snd (add_expense description category amount date w) = w)).
    { intros H.
      destruct (add_expense_rejects w description category amount date H)
        as (e & -> & msg & ->).
      simpl. eauto. }
    destruct (is_empty (strip category)) eqn:Hc.
    { destruct Hrej as [Hr Hs]; [auto |]. split; [split; auto | exact Hs]. }
    destruct (is_empty (strip description)) eqn:Hd.
    { destruct Hrej as [Hr Hs]; [auto |]. split; [split; auto | exact Hs]. }
    destruct (lt0 amount) eqn:Hlt.
    { destruct Hrej as [Hr Hs]; [auto |]. split; [split; auto | exact Hs]. }
    destruct (parse_date (today w) date) as [parsed | e] eqn:Hp.
    + rewrite (add_expense_accepts w _ _ _ _ parsed Hc Hd Hlt Hp).
      rewrite save_to_file_ok. split.
      * split; [intros [msg H]; discriminate |].
        intros [H | [H | [H | [He Hs]]]]; try discriminate.
        unfold parse_date in Hp. rewrite He, Hs in Hp. discriminate.
      * intros e H; discriminate.
    + destruct Hrej as [Hr Hs]; [eauto 6 |]. split; [split; [| auto] | exact Hs].
      intros _. do 3 right. unfold parse_date in Hp.
      destruct (is_empty (strip date)); [discriminate |].
      destruct (strptime (strip date)); [discriminate | auto].
Qed.

(** ** Totals *)

Lemma fold_left_add_int_sum (xs : list Z) (a : Z) :
  fold_left Z.add xs a = a + int_sum xs.
Proof.
  revert a. induction xs as [| x xs IH]; intros a; simpl; [lia |].
  rewrite IH. lia.
Qed.

(** C3. [balance] is [total_income] minus [total_expenses]; each total is
    the sum of the amounts of its sequence, added from 0 in sequence order
    (over [int], the sum of the arithmetic); with its sequence empty a
    total is 0, and with both empty so is the balance. *)
Theorem balance_is_income_minus_expenses :
  (forall d,
     balance d = sub (total_income d) (total_expenses d)
     /\ total_income d = fold_left add (map income_amount (incomes d)) zero
     /\ total_expenses d = fold_left add (map expense_amount (expenses d)) zero)
  /\
  (forall d : @DataHandler int_Number,
     total_income d = int_sum (map income_amount (incomes d))
     /\ total_expenses d = int_sum (map expense_amount (expenses d))
     /\ balance d
        = int_sum (map income_amount (incomes d))
          - int_sum (map expense_amount (expenses d)))
  /\
  (forall a f es,
     total_income
       {| autosave := a; incomes := []; expenses := es; files_loaded := f |}
     = zero)
  /\
  (forall a f incs,
     total_expenses
       {| autosave := a; incomes := incs; expenses := []; files_loaded := f |}
     = zero)
  /\
  (forall a f,
     balance {| autosave := a; incomes := []; expenses := []; files_loaded := f |}
     = zero).
Proof.
  split; [intros d; repeat split |].
  split.
  { intros d. unfold balance, total_income, total_expenses, py_sum. simpl.
    rewrite !fold_left_add_int_sum. repeat split. }
  split; [reflexivity |]. split; [reflexivity |].
  intros a f. unfold balance, total_income, total_expenses, py_sum. simpl.
  apply sub_zero_zero.
Qed.

(** C10. The text fields are stored as they were passed, not trimmed: the
    record appended by a successful [add_income] carries the source with
    its leading and trailing blanks, as [" job "] shows, and the one
    appended by [add_expense] the description and category verbatim; only
    the date is stored as [parse_date] returned it. *)
Theorem fields_stored_verbatim :
  (forall w src amount,
     is_empty (strip src) = false -> lt0 amount = false ->
     exists w',
       add_income src amount w = (Ok tt, w')
       /\ source <$> last (incomes (self w')) = Some src)
  /\
  (forall w amount,
     lt0 amount = false ->
     strip " job " <> " job "%string
     /\ exists w',
          add_income " job " amount w = (Ok tt, w')
          /\ source <$> last (incomes (self w')) = Some " job "%string)
  /\
  (forall w description category amount date parsed,
     is_empty (strip description) = false ->
     is_empty (strip category) = false ->
     lt0 amount = false ->
     parse_date (today w) date = Ok parsed ->
     exists w',
       add_expense description category amount date w = (Ok tt, w')
       /\ last (expenses (self w'))
          = Some {| description := description; category := category;
                    expense_amount := amount; date := parsed |}).
Proof.
  assert (Hinc : forall w src amount,
    is_empty (strip src) = false -> lt0 amount = false ->
    exists w',
      add_income src amount w = (Ok tt, w')
      /\ source <$> last (incomes (self w')) = Some src).
  { intros w src amount Hsrc Hlt.
    rewrite (add_income_accepts w src amount Hlt Hsrc).
    destruct (save_to_file_run (with_self (appended_income src amount (self w)) w))
      as (fs & -> & _).
    eexists; split; [reflexivity |]. simpl. rewrite last_snoc. reflexivity. }
  split; [exact Hinc |]. split.
  - intros w amount Hlt. split; [discriminate |].
    apply Hinc; [reflexivity | exact Hlt].
  - intros w description category amount date parsed Hd Hc Hlt Hp.
    rewrite (add_expense_accepts w _ _ _ _ parsed Hc Hd Hlt Hp).
    destruct (save_to_file_run
      (with_self (appended_expense description category amount parsed (self w)) w))
      as (fs & -> & _).
    eexists; split; [reflexivity |]. simpl. apply last_snoc.
Qed.

(** ** Deleting records *)

Lemma del_item_in_range {A} (xs : list A) (index : Z) :
  - Z.of_nat (length xs) <= index < Z.of_nat (length xs) ->
  del_item xs index = Ok (delete (position (Z.of_nat (length xs)) index) xs)
  /\ (position (Z.of_nat (length xs)) index < length xs)%nat.
Proof.
  intros Hr. unfold del_item, position.
  destruct (index <? 0) eqn:Hneg.
  - apply Z.ltb_lt in Hneg.
    replace (index + Z.of_nat (length xs) <? 0) with false by lia.
    replace (Z.of_nat (length xs) <=? index + Z.of_nat (length xs)) with false by lia.
    split; [reflexivity | lia].
  - apply Z.ltb_ge in Hneg. cbv zeta.
    replace (index <? 0) with false by lia.
    replace (Z.of_nat (length xs) <=? index) with false by lia.
    split; [reflexivity | lia].
Qed.

Lemma del_item_out_of_range {A} (xs : list A) (index : Z) :
  index < - Z.of_nat (length xs) \/ Z.of_nat (length xs) <= index ->
  del_item xs index = Raise IndexError.
Proof.
  intros Hr. unfold del_item.
  destruct (index <? 0) eqn:Hneg.
  - apply Z.ltb_lt in Hneg.
    replace (index + Z.of_nat (length xs) <? 0) with true by lia. reflexivity.
  - apply Z.ltb_ge in Hneg. cbv zeta.
    replace (Z.of_nat (length xs) <=? index) with true by lia.
    rewrite orb_true_r. reflexivity.
Qed.

Lemma delete_removes_one {A} (xs : list A) (p : nat) :
  (p < length xs)%nat ->
  S (length (delete p xs)) = length xs
  /\ forall j : nat,
       delete p xs !! j = xs !! (if decide (j < p)%nat then j else S j).
Proof.
  intros Hp. split; [| intros j; apply list_lookup_delete].
  rewrite length_delete by (apply lookup_lt_is_Some; exact Hp). lia.
Qed.

Lemma delete_income_run w index :
  let n := Z.of_nat (length (incomes (self w))) in
  (- n <= index < n ->
   exists w',
     delete_income index w = (Ok tt, w')
     /\ incomes (self w') = delete (position n index) (incomes (self w))
     /\ expenses (self w') = expenses (self w)
     /\ (position n index < length (incomes (self w)))%nat)
  /\ (index < - n \/ n <= index -> delete_income index w = (Raise IndexError, w)).
Proof.
  simpl. split.
  - intros Hr. destruct (del_item_in_range (incomes (self w)) index Hr) as [Hd Hp].
    unfold delete_income, bind, get, lift. rewrite Hd.
    unfold update_self.
    destruct (save_to_file_run
      (with_self
         (set_incomes
            (delete (position (Z.of_nat (length (incomes (self w)))) index)
               (incomes (self w))) (self w)) w)) as (fs & -> & _).
    eexists; split; [reflexivity |]. simpl. auto.
  - intros Hr. unfold delete_income, bind, get, lift.
    rewrite (del_item_out_of_range _ _ Hr). reflexivity.
Qed.

Lemma delete_expense_run w index :
  let n := Z.of_nat (length (expenses (self w))) in
  (- n <= index < n ->
   exists w',
     delete_expense index w = (Ok tt, w')
     /\ expenses (self w') = delete (position n index) (expenses (self w))
     /\ incomes (self w') = incomes (self w)
     /\ (position n index < length (expenses (self w)))%nat)
  /\ (index < - n \/ n <= index -> delete_expense index w = (Raise IndexError, w)).
Proof.
  simpl. split.
  - intros Hr. destruct (del_item_in_range (expenses (self w)) index Hr) as [Hd Hp].
    unfold delete_expense, bind, get, lift. rewrite Hd.
    unfold update_self.
    destruct (save_to_file_run
      (with_self
         (set_expenses
            (delete (position (Z.of_nat (length (expenses (self w)))) index)
               (expenses (self w))) (self w)) w)) as (fs & -> & _).
    eexists; split; [reflexivity |]. simpl. auto.
  - intros Hr. unfold delete_expense, bind, get, lift.
    rewrite (del_item_out_of_range _ _ Hr). reflexivity.
Qed.

(** C9, as the code has it. With [n] records, an index in [-n .. n-1]
    deletes exactly one record, the one at position [index] when it is
    not negative and at [n + index] when it is: the records before that
    position stay where they are and those after it move up by one. Any
    other index raises [IndexError] and changes nothing. *)
Theorem delete_by_index :
  (forall w index,
     let n := Z.of_nat (length (incomes (self w))) in
     (- n <= index < n ->
      exists w',
        delete_income index w = (Ok tt, w')
        /\ S (length (incomes (self w'))) = length (incomes (self w))
        /\ (forall j : nat,
              incomes (self w') !! j
              = incomes (self w) !!
                  (if decide (j < position n index)%nat then j else S j))
        /\ expenses (self w') = expenses (self w))
     /\ (index < - n \/ n <= index ->
         delete_income index w = (Raise IndexError, w)))
  /\
  (forall w index,
     let n := Z.of_nat (length (expenses (self w))) in
     (- n <= index < n ->
      exists w',
        delete_expense index w = (Ok tt, w')
        /\ S (length (expenses (self w'))) = length (expenses (self w))
        /\ (forall j : nat,
              expenses (self w') !! j
              = expenses (self w) !!
                  (if decide (j < position n index)%nat then j else S j))
        /\ incomes (self w') = incomes (self w))
     /\ (index < - n \/ n <= index ->
         delete_expense index w = (Raise IndexError, w))).
Proof.
  split; intros w index n.
  - destruct (delete_income_run w index) as [Hin Hout]. split; [| exact Hout].
    intros Hr. destruct (Hin Hr) as (w' & Hrun & Hinc & Hexp & Hp).
    exists w'. split; [exact Hrun |]. rewrite Hinc.
    destruct (delete_removes_one (incomes (self w)) _ Hp) as [Hlen Hlook].
    auto.
  - destruct (delete_expense_run w index) as [Hin Hout]. split; [| exact Hout].
    intros Hr. destruct (Hin Hr) as (w' & Hrun & Hexp & Hinc & Hp).
    exists w'. split; [exact Hrun |]. rewrite Hexp.
    destruct (delete_removes_one (expenses (self w)) _ Hp) as [Hlen Hlook].
    auto.
Qed.

(** ** What [strptime] accepts *)

Lemma append_assoc (a b c : string) : ((a ++ b) ++ c = a ++ (b ++ c))%string.
Proof. induction a as [| x a IH]; simpl; [reflexivity | rewrite IH; reflexivity]. Qed.

Lemma re_match_sound {A} (r : regex) :
  forall (s : string) (k : string -> string -> option A) (x : A),
    re_match r s k = Some x ->
    exists m s', matches r m /\ s = (m ++ s')%string /\ k m s' = Some x.
Proof.
  induction r as [c | lo hi | | r1 IH1 r2 IH2 | r1 IH1 r2 IH2]; intros s k x H; simpl in H.
  - destruct s as [| c' s']; [discriminate |].
    destruct (Ascii.eqb c' c) eqn:Hc; [| discriminate].
    apply Ascii.eqb_eq in Hc. subst c'.
    exists (String c EmptyString), s'. split; [constructor | split; [reflexivity | exact H]].
  - destruct s as [| c' s']; [discriminate |].
    destruct (between lo hi c') eqn:Hc; [| discriminate].
    exists (String c' EmptyString), s'. split; [constructor; exact Hc | split; [reflexivity | exact H]].
  - destruct s as [| c' s']; [discriminate |].
    destruct (isdigit c') eqn:Hc; [| discriminate].
    exists (String c' EmptyString), s'. split; [constructor; exact Hc | split; [reflexivity | exact H]].
  - apply IH1 in H. destruct H as (m1 & s1 & Hm1 & -> & H).
    apply IH2 in H. destruct H as (m2 & s2 & Hm2 & -> & H).
    exists (m1 ++ m2)%string, s2. split; [constructor; assumption |].
    split; [symmetry; apply append_assoc | exact H].
  - destruct (re_match r1 s k) as [y |] eqn:H1.
    + injection H as ->. apply IH1 in H1. destruct H1 as (m & s' & Hm & -> & Hk).
      exists m, s'. split; [apply matches_alt_l; exact Hm | auto].
    + apply IH2 in H. destruct H as (m & s' & Hm & -> & Hk).
      exists m, s'. split; [apply matches_alt_r; exact Hm | auto].
Qed.

Ltac invert_matches :=
  repeat match goal with
  | H : matches (Seq _ _) _ |- _ => inversion H; subst; clear H
  | H : matches (Alt _ _) _ |- _ => inversion H; subst; clear H
  | H : matches (Lit _) _ |- _ => inversion H; subst; clear H
  | H : matches (Range _ _) _ |- _ => inversion H; subst; clear H
  | H : matches Digit _ |- _ => inversion H; subst; clear H
  end.

Lemma matches_re_Y y : matches re_Y y -> year_text y.
Proof. unfold re_Y. intros H. invert_matches. simpl. constructor; assumption. Qed.

Lemma matches_re_m m : matches re_m m -> month_text m.
Proof.
  unfold re_m. intros H. invert_matches; simpl;
    first [ apply month_d; assumption | apply month_0d; assumption | apply month_1d; assumption ].
Qed.

Lemma matches_re_d d : matches re_d d -> day_text d.
Proof.
  unfold re_d. intros H. invert_matches; simpl;
    first [ apply day_d; assumption | apply day_blank_d; assumption
          | apply day_0d; assumption | apply day_dd; assumption | apply day_3d; assumption ].
Qed.

Lemma is_empty_true s : is_empty s = true -> s = EmptyString.
Proof. destruct s; [reflexivity | discriminate]. Qed.

Lemma append_empty_r (s : string) : (s ++ EmptyString)%string = s.
Proof. induction s as [| c s IH]; simpl; [reflexivity | rewrite IH; reflexivity]. Qed.

Lemma strptime_date_text s dt : strptime s = Some dt -> date_text s.
Proof.
  unfold strptime. destruct (strptime_match s) as [[[[y m] d] rest] |] eqn:Hm; [| discriminate].
  destruct (is_empty rest) eqn:Hr; [| discriminate].
  destruct (_check_date_fields _) eqn:Hc; [| discriminate]. intros _.
  apply is_empty_true in Hr. subst rest.
  unfold strptime_match in Hm.
  apply re_match_sound in Hm. destruct Hm as (y' & s1 & Hy & -> & Hm).
  apply re_match_sound in Hm. destruct Hm as (h1 & s2 & Hh1 & -> & Hm).
  apply re_match_sound in Hm. destruct Hm as (m' & s3 & Hmm & -> & Hm).
  apply re_match_sound in Hm. destruct Hm as (h2 & s4 & Hh2 & -> & Hm).
  apply re_match_sound in Hm. destruct Hm as (d' & s5 & Hd & -> & Hm).
  injection Hm as -> -> -> ->.
  inversion Hh1; subst. inversion Hh2; subst.
  exists y, m, d. split; [apply matches_re_Y; exact Hy |].
  split; [apply matches_re_m; exact Hmm |].
  split; [apply matches_re_d; exact Hd |].
  split; [| exact Hc].
  rewrite append_empty_r. reflexivity.
Qed.

Ltac all_chars c := destruct c as [[] [] [] [] [] [] [] []].

Lemma between_1_9 c :
  between "1" "9" c = true -> In c ["1"; "2"; "3"; "4"; "5"; "6"; "7"; "8"; "9"]%char.
Proof. all_chars c; intros H; first [discriminate H | simpl; tauto]. Qed.

Lemma between_0_2 c : between "0" "2" c = true -> In c ["0"; "1"; "2"]%char.
Proof. all_chars c; intros H; first [discriminate H | simpl; tauto]. Qed.

Lemma between_0_1 c : between "0" "1" c = true -> In c ["0"; "1"]%char.
Proof. all_chars c; intros H; first [discriminate H | simpl; tauto]. Qed.

Lemma between_1_2 c : between "1" "2" c = true -> In c ["1"; "2"]%char.
Proof. all_chars c; intros H; first [discriminate H | simpl; tauto]. Qed.

Lemma isdigit_cases c :
  isdigit c = true -> In c ["0"; "1"; "2"; "3"; "4"; "5"; "6"; "7"; "8"; "9"]%char.
Proof. all_chars c; intros H; first [discriminate H | simpl; tauto]. Qed.

Ltac enum H := simpl in H; repeat (destruct H as [<- | H]); [.. | destruct H].

Lemma re_Y_digits {A} a b c d rest (k : string -> string -> option A) :
  isdigit a = true -> isdigit b = true -> isdigit c = true -> isdigit d = true ->
  re_match re_Y (String a (String b (String c (String d rest)))) k
  = k (String a (String b (String c (String d EmptyString)))) rest.
Proof. intros Ha Hb Hc Hd. simpl. rewrite Ha, Hb, Hc, Hd. reflexivity. Qed.

Lemma re_m_then_hyphen {A} m rest (K : string -> string -> option A) :
  month_text m ->
  re_match re_m (m ++ String "-" rest)
    (fun m' s3 => re_match (Lit "-") s3 (fun _ s4 => K m' s4))
  = K m rest.
Proof.
  intros [c Hc | c Hc | c Hc].
  - apply between_1_9 in Hc. enum Hc; reflexivity.
  - apply between_1_9 in Hc. enum Hc; simpl; destruct (K _ rest); reflexivity.
  - apply between_0_2 in Hc. enum Hc; simpl; destruct (K _ rest); reflexivity.
Qed.

Lemma re_d_at_end {A} d (f : string -> string -> A) :
  day_text d ->
  re_match re_d d (fun d' s5 => Some (f d' s5)) = Some (f d EmptyString).
Proof.
  intros [c Hc | c Hc | c Hc | c1 c2 Hc1 Hc2 | c Hc].
  - apply between_1_9 in Hc. enum Hc; reflexivity.
  - apply between_1_9 in Hc. enum Hc; reflexivity.
  - apply between_1_9 in Hc. enum Hc; reflexivity.
  - apply between_1_2 in Hc1. apply isdigit_cases in Hc2. enum Hc1; enum Hc2; reflexivity.
  - apply between_0_1 in Hc. enum Hc; reflexivity.
Qed.

Lemma re_lit {A} c rest (k : string -> string -> option A) :
  re_match (Lit c) (String c rest) k = k (String c EmptyString) rest.
Proof. simpl. rewrite Ascii.eqb_refl. reflexivity. Qed.

Lemma strptime_match_date_text y m d :
  year_text y -> month_text m -> day_text d ->
  strptime_match (y ++ "-" ++ m ++ "-" ++ d) = Some (y, m, d, EmptyString).
Proof.
  intros [a b c e Ha Hb Hc He] Hm Hd.
  unfold strptime_match. cbn [String.append].
  rewrite (re_Y_digits a b c e _ _ Ha Hb Hc He), re_lit.
  rewrite (re_m_then_hyphen m d
    (fun m' s4 => re_match re_d s4
       (fun d' s5 =>
          Some (String a (String b (String c (String e EmptyString))), m', d', s5)))
    Hm).
  apply (re_d_at_end d
    (fun d' s5 => (String a (String b (String c (String e EmptyString))), m, d', s5)) Hd).
Qed.

Lemma date_text_strptime s :
  date_text s -> exists dt, strptime s = Some dt.
Proof.
  intros (y & m & d & Hy & Hm & Hd & -> & Hc).
  unfold strptime. rewrite (strptime_match_date_text y m d Hy Hm Hd).
  cbn [is_empty]. rewrite Hc. eauto.
Qed.

Lemma strptime_iff_date_text s : (exists dt, strptime s = Some dt) <-> date_text s.
Proof.
  split; [intros [dt H]; exact (strptime_date_text s dt H) | apply date_text_strptime].
Qed.

Lemma digit_char_spec n :
  isdigit (digit_char n) = true /\ isspace (digit_char n) = false
  /\ digit_value (digit_char n) = n mod 10.
Proof.
  unfold digit_char.
  pose proof (Z.mod_pos_bound n 10 eq_refl) as Hr.
  set (r := n mod 10) in *.
  assert (H : r = 0 \/ r = 1 \/ r = 2 \/ r = 3 \/ r = 4 \/ r = 5 \/ r = 6
              \/ r = 7 \/ r = 8 \/ r = 9) by lia.
  clearbody r.
  repeat (destruct H as [-> | H]); try subst r; vm_compute; auto.
Qed.

Lemma strip_digits a b c d :
  isspace a = false -> isspace b = false -> isspace c = false -> isspace d = false ->
  strip (String a (String b (String c (String d EmptyString))))
  = String a (String b (String c (String d EmptyString))).
Proof.
  intros Ha Hb Hc Hd. unfold strip. simpl. rewrite Ha. simpl.
  rewrite Hd. simpl. rewrite Hc, Hb, Ha. reflexivity.
Qed.

Lemma pad4_year y :
  0 <= y <= 9999 -> year_text (pad4 y) /\ py_int (pad4 y) = y.
Proof.
  intros Hy. unfold pad4, pad2.
  destruct (digit_char_spec (y / 1000)) as (Ha1 & Ha2 & Ha3).
  destruct (digit_char_spec (y / 100)) as (Hb1 & Hb2 & Hb3).
  destruct (digit_char_spec (y / 10)) as (Hc1 & Hc2 & Hc3).
  destruct (digit_char_spec y) as (Hd1 & Hd2 & Hd3).
  split; [constructor; assumption |].
  unfold py_int. rewrite strip_digits by assumption.
  simpl. rewrite Ha3, Hb3, Hc3, Hd3.
  Z.div_mod_to_equations. lia.
Qed.

Lemma pad2_month m :
  1 <= m <= 12 -> month_text (pad2 m) /\ py_int (pad2 m) = m.
Proof.
  intros Hm.
  assert (H : m = 1 \/ m = 2 \/ m = 3 \/ m = 4 \/ m = 5 \/ m = 6 \/ m = 7
              \/ m = 8 \/ m = 9 \/ m = 10 \/ m = 11 \/ m = 12) by lia.
  repeat (destruct H as [-> | H]); try subst m;
    (split; [first [apply month_0d | apply month_1d] |]; reflexivity).
Qed.

Lemma pad2_day d :
  1 <= d <= 31 -> day_text (pad2 d) /\ py_int (pad2 d) = d.
Proof.
  intros Hd.
  assert (H : (d = 1 \/ d = 2 \/ d = 3 \/ d = 4 \/ d = 5 \/ d = 6 \/ d = 7
               \/ d = 8 \/ d = 9)
              \/ (10 <= d <= 29) \/ d = 30 \/ d = 31) by lia.
  destruct H as [H | [H | [-> | ->]]].
  - repeat (destruct H as [-> | H]); try subst d;
      (split; [apply day_0d |]; reflexivity).
  - assert (H' : d = 10 \/ d = 11 \/ d = 12 \/ d = 13 \/ d = 14 \/ d = 15
                 \/ d = 16 \/ d = 17 \/ d = 18 \/ d = 19 \/ d = 20 \/ d = 21
                 \/ d = 22 \/ d = 23 \/ d = 24 \/ d = 25 \/ d = 26 \/ d = 27
                 \/ d = 28 \/ d = 29) by lia.
    clear H Hd.
    repeat (destruct H' as [-> | H']); try subst d;
      (split; [apply day_dd |]; reflexivity).
  - split; [apply day_3d |]; reflexivity.
  - split; [apply day_3d |]; reflexivity.
Qed.

Lemma days_in_month_le_31 y m : _days_in_month y m <= 31.
Proof.
  unfold _days_in_month.
  repeat match goal with |- context [if ?b then _ else _] => destruct b end; lia.
Qed.

Lemma check_date_fields_bounds dt :
  _check_date_fields dt = true ->
  1 <= year dt <= 9999 /\ 1 <= month dt <= 12 /\ 1 <= day dt <= 31.
Proof.
  unfold _check_date_fields, MINYEAR, MAXYEAR. intros H.
  pose proof (days_in_month_le_31 (year dt) (month dt)).
  repeat (apply andb_prop in H; destruct H as [H ?]). lia.
Qed.

Lemma strptime_strftime dt :
  _check_date_fields dt = true -> strptime (strftime dt) = Some dt.
Proof.
  intros Hc. destruct (check_date_fields_bounds dt Hc) as (Hy & Hm & Hd).
  destruct (pad4_year (year dt)) as [Hy1 Hy2]; [lia |].
  destruct (pad2_month (month dt) Hm) as [Hm1 Hm2].
  destruct (pad2_day (day dt) Hd) as [Hd1 Hd2].
  unfold strptime, strftime.
  rewrite (strptime_match_date_text _ _ _ Hy1 Hm1 Hd1).
  cbn [is_empty]. rewrite Hy2, Hm2, Hd2.
  destruct dt as [y m d]. simpl in *. rewrite Hc. reflexivity.
Qed.

Lemma two_digit_month a b :
  isdigit a = true -> isdigit b = true ->
  1 <= py_int (String a (String b EmptyString)) <= 12 ->
  month_text (String a (String b EmptyString)).
Proof.
  intros Ha Hb. apply isdigit_cases in Ha. apply isdigit_cases in Hb.
  enum Ha; enum Hb; vm_compute; intros [H1 H2];
    first [ exfalso; apply H1; reflexivity | exfalso; apply H2; reflexivity
          | apply month_0d; reflexivity | apply month_1d; reflexivity ].
Qed.

Lemma two_digit_day a b :
  isdigit a = true -> isdigit b = true ->
  1 <= py_int (String a (String b EmptyString)) <= 31 ->
  day_text (String a (String b EmptyString)).
Proof.
  intros Ha Hb. apply isdigit_cases in Ha. apply isdigit_cases in Hb.
  enum Ha; enum Hb; vm_compute; intros [H1 H2];
    first [ exfalso; apply H1; reflexivity | exfalso; apply H2; reflexivity
          | apply day_0d; reflexivity | apply day_dd; reflexivity
          | apply day_3d; reflexivity ].
Qed.

Lemma grouped_date_text s :
  yyyy_mm_dd_grouping s = true ->
  _check_date_fields (grouped_fields s) = true ->
  date_text s.
Proof.
  unfold yyyy_mm_dd_grouping.
  destruct s as [| y1 [| y2 [| y3 [| y4 [| h1 [| m1 [| m2 [| h2 [| d1 [| d2 [| ? ?]]]]]]]]]]];
    try discriminate.
  intros Hg Hc.
  do 9 (apply andb_prop in Hg; destruct Hg as [Hg ?]).
  repeat match goal with
         | H : Ascii.eqb _ _ = true |- _ => apply Ascii.eqb_eq in H; subst
         end.
  destruct (check_date_fields_bounds _ Hc) as (_ & Hm & Hd).
  exists (String y1 (String y2 (String y3 (String y4 EmptyString)))),
    (String m1 (String m2 EmptyString)), (String d1 (String d2 EmptyString)).
  split; [constructor; assumption |].
  split; [apply two_digit_month; assumption |].
  split; [apply two_digit_day; assumption |].
  split; [reflexivity | exact Hc].
Qed.

(** ** Parsing dates *)

(** C4 fails as stated: a text whose month and day are written with one
    digit is not in the 4-2-2 grouping, and [parse_date] returns it. *)
Lemma parse_date_accepts_one_digit_fields :
  is_empty (strip "2024-1-5") = false
  /\ yyyy_mm_dd_grouping (strip "2024-1-5") = false
  /\ parse_date sample_today "2024-1-5" = Ok "2024-1-5"%string.
Proof. repeat split. Qed.

(** C4, as the code has it. A text that is empty after trimming gives
    the system date as [YYYY-MM-DD]. A trimmed text made of a four-digit
    year, a month written [1]..[9], [01]..[09] or [10]..[12] and a day
    written [1]..[9], [01]..[31] or a blank and [1]..[9], joined by
    hyphens and denoting a date of the calendar, is returned unchanged;
    every valid text in the 4-2-2 grouping is one of these. Every other
    text raises [ValueError] with the fixed message. *)
Theorem parse_date_cases :
  forall today text,
    (is_empty (strip text) = true -> parse_date today text = Ok (strftime today))
    /\ (is_empty (strip text) = false -> date_text (strip text) ->
        parse_date today text = Ok (strip text))
    /\ (yyyy_mm_dd_grouping (strip text) = true ->
        _check_date_fields (grouped_fields (strip text)) = true ->
        parse_date today text = Ok (strip text))
    /\ (is_empty (strip text) = false -> ~ date_text (strip text) ->
        parse_date today text = Raise (ValueError date_format_message)).
Proof.
  intros today text. unfold parse_date.
  assert (Hacc : is_empty (strip text) = false -> date_text (strip text) ->
                 (if is_empty (strip text) then Ok (strftime today)
                  else match strptime (strip text) with
                       | Some _ => Ok (strip text)
                       | None => Raise (ValueError date_format_message)
                       end) = Ok (strip text)).
  { intros He Hd. rewrite He.
    destruct (date_text_strptime _ Hd) as [dt ->]. reflexivity. }
  split; [intros ->; reflexivity |].
  split; [exact Hacc |].
  split.
  - intros Hg Hc. apply Hacc; [| apply grouped_date_text; assumption].
    destruct (strip text); [discriminate Hg | reflexivity].
  - intros He Hn. rewrite He.
    destruct (strptime (strip text)) as [dt |] eqn:Hs; [| reflexivity].
    exfalso. apply Hn. exact (strptime_date_text _ _ Hs).
Qed.

(** ** Loading *)

Lemma init_run a w :
  match load_from_file (with_self (fresh a) w) with
  | (Ok _, w1) => __init__ a w = (Ok tt, w1)
  | (Raise _, w1) => __init__ a w = (Ok tt, with_self (reset (self w1)) w1)
  end.
Proof.
  unfold __init__, bind, update_self, try_except. simpl.
  destruct (load_from_file (with_self (fresh a) w)) as [[[] | e] w1]; reflexivity.
Qed.

Lemma load_json_run w :
  match finance_data_json (disk w) with
  | None => load_json w = (Raise FileNotFoundError, w)
  | Some NotJson => load_json w = (Raise JSONDecodeError, w)
  | Some (Json data) =>
      match data_expenses data, data_incomes data with
      | None, _ => load_json w = (Raise (KeyError "expenses"), w)
      | Some e, None =>
          load_json w
          = (Raise (KeyError "incomes"),
             with_self (set_expenses (or_empty e) (self w)) w)
      | Some e, Some i =>
          load_json w
          = (Ok tt,
             with_self
               (set_incomes (or_empty i) (set_expenses (or_empty e) (self w))) w)
      end
  end.
Proof.
  unfold load_json, json_load, bind, get, getitem, update_self, ret, raise.
  destruct (finance_data_json (disk w)) as [[| data] |]; try reflexivity.
  destruct (data_expenses data) as [e |]; [| reflexivity].
  destruct (data_incomes data) as [i |]; reflexivity.
Qed.

Lemma load_from_file_fallback w :
  finance_data_json (disk w) = None \/ finance_data_json (disk w) = Some NotJson ->
  load_from_file w = load_txt w.
Proof.
  intros H. unfold load_from_file, try_except.
  pose proof (load_json_run w) as Hj.
  destruct H as [H | H]; rewrite H in Hj; rewrite Hj; reflexivity.
Qed.

Lemma load_from_file_json w data :
  finance_data_json (disk w) = Some (Json data) ->
  load_from_file w = load_json w.
Proof.
  intros H. unfold load_from_file, try_except.
  pose proof (load_json_run w) as Hj. rewrite H in Hj.
  destruct (data_expenses data) as [e |]; [| rewrite Hj; reflexivity].
  destruct (data_incomes data) as [i |]; rewrite Hj; reflexivity.
Qed.

Lemma load_line_malformed line w :
  malformed_line line = true ->
  exists msg, load_line line w = (Raise (ValueError msg), w).
Proof.
  unfold malformed_line, load_line. intros H.
  apply andb_prop in H. destruct H as [He H].
  apply negb_true_iff in He. rewrite He.
  destruct (String.eqb _ "Income").
  { rewrite H. eexists; reflexivity. }
  destruct (String.eqb _ "Expense").
  { rewrite H. eexists; reflexivity. }
  eexists; reflexivity.
Qed.

Lemma for_each_raises {A} (body : A -> M unit) (xs : list A) (x : A) :
  In x xs ->
  (forall w, exists e w', body x w = (Raise e, w')) ->
  forall w, exists e w', for_each xs body w = (Raise e, w').
Proof.
  intros Hin Hx. induction xs as [| y xs IH]; [destruct Hin |].
  intros w. simpl. unfold bind at 1.
  destruct Hin as [-> | Hin].
  - destruct (Hx w) as (e & w' & ->). eauto.
  - destruct (body y w) as [[[] | e] w1]; [apply IH; exact Hin | eauto].
Qed.

Lemma load_txt_raises w :
  finance_data_txt (disk w) = None
  \/ (exists text line,
        finance_data_txt (disk w) = Some text
        /\ In line (readlines (universal_newlines text))
        /\ malformed_line line = true) ->
  exists e w', load_txt w = (Raise e, w').
Proof.
  unfold load_txt, open_txt, bind, get. intros [H | (text & line & H & Hin & Hbad)]; rewrite H.
  - eauto.
  - apply (for_each_raises load_line _ line Hin).
    intros w1. destruct (load_line_malformed line w1 Hbad) as [msg ->]. eauto.
Qed.

Lemma forallb_delete {A} (f : A -> bool) (xs : list A) (i : nat) :
  forallb f xs = true -> forallb f (delete i xs) = true.
Proof.
  revert i. induction xs as [| x xs IH]; intros i H; [destruct i; exact H |].
  simpl in H. apply andb_prop in H. destruct H as [Hx Hxs].
  destruct i; simpl; [exact Hxs |].
  rewrite Hx. apply IH. exact Hxs.
Qed.

Lemma parse_date_parses today text parsed :
  _check_date_fields today = true ->
  parse_date today text = Ok parsed -> date_parses parsed = true.
Proof.
  intros Ht. unfold parse_date, date_parses.
  destruct (is_empty (strip text)).
  - intros H. injection H as <-. rewrite (strptime_strftime today Ht). reflexivity.
  - destruct (strptime (strip text)) eqn:Hs; [| discriminate].
    intros H. injection H as <-. rewrite Hs. reflexivity.
Qed.

(** ** Persistence *)

(** C5. Saving (outside test mode) and then constructing a ledger from
    the files just written gives back both sequences, record for record,
    with the load reported as successful. The constructor starts from any
    object [d0], on any day [t0]: what the new ledger holds is read from
    the files, which the construction leaves as they are. *)
Theorem save_then_load_round_trip :
  forall w a d0 t0,
    autosave (self w) = true ->
    exists w1 w2,
      save_to_file w = (Ok tt, w1)
      /\ __init__ a {| self := d0; disk := disk w1; today := t0 |} = (Ok tt, w2)
      /\ incomes (self w2) = incomes (self w)
      /\ expenses (self w2) = expenses (self w)
      /\ files_loaded (self w2) = true
      /\ autosave (self w2) = a
      /\ disk w2 = disk w1.
Proof.
  intros w a d0 t0 Ha.
  assert (Hs : save_to_file w
    = (Ok tt,
       with_disk
         {| finance_data_json :=
              Some (Json {| data_incomes := Some (JArray (incomes (self w)));
                            data_expenses := Some (JArray (expenses (self w))) |});
            finance_data_txt :=
              Some (writelines (map expense_line (expenses (self w)))
                    ++ writelines (map income_line (incomes (self w))))%string |}
         w)).
  { unfold save_to_file, bind, get. rewrite Ha. reflexivity. }
  rewrite Hs. eexists _, _. split; [reflexivity |].
  match goal with |- __init__ a ?w1 = _ /\ _ => set (saved := w1) end.
  pose proof (init_run a saved) as Hi.
  rewrite (load_from_file_json (with_self (fresh a) saved) _ eq_refl) in Hi.
  pose proof (load_json_run (with_self (fresh a) saved)) as Hj.
  simpl in Hj. rewrite Hj in Hi. rewrite Hi. simpl. auto 10.
Qed.

(** C6. Constructing a ledger never raises. The load reads the JSON file
    when it parses and the text file when the JSON file is missing or is
    not JSON; whenever the load raises (both files missing, or a text
    line with an unknown tag or the wrong number of fields among them)
    the ledger starts with both sequences empty and [files_loaded] false. *)
Theorem init_absorbs_load_failure :
  forall a w,
    let w0 := with_self (fresh a) w in
    (exists w', __init__ a w = (Ok tt, w'))
    /\ (finance_data_json (disk w) = None
        \/ finance_data_json (disk w) = Some NotJson ->
        load_from_file w0 = load_txt w0)
    /\ (forall data, finance_data_json (disk w) = Some (Json data) ->
        load_from_file w0 = load_json w0)
    /\ (forall e w1, load_from_file w0 = (Raise e, w1) ->
        exists w',
          __init__ a w = (Ok tt, w')
          /\ incomes (self w') = [] /\ expenses (self w') = []
          /\ files_loaded (self w') = false)
    /\ (finance_data_json (disk w) = None
        \/ finance_data_json (disk w) = Some NotJson ->
        finance_data_txt (disk w) = None
        \/ (exists text line,
              finance_data_txt (disk w) = Some text
              /\ In line (readlines (universal_newlines text))
              /\ malformed_line line = true) ->
        exists w',
          __init__ a w = (Ok tt, w')
          /\ incomes (self w') = [] /\ expenses (self w') = []
          /\ files_loaded (self w') = false).
Proof.
  intros a w w0.
  assert (Hfail : forall e w1, load_from_file w0 = (Raise e, w1) ->
    exists w',
      __init__ a w = (Ok tt, w')
      /\ incomes (self w') = [] /\ expenses (self w') = []
      /\ files_loaded (self w') = false).
  { intros e w1 H. pose proof (init_run a w) as Hi. fold w0 in Hi.
    rewrite H in Hi. rewrite Hi. eexists; split; [reflexivity |]. simpl. auto. }
  split.
  { pose proof (init_run a w) as Hi.
    destruct (load_from_file (with_self (fresh a) w)) as [[[] | e] w1]; eauto. }
  split; [intros H; apply load_from_file_fallback; exact H |].
  split; [intros data H; apply (load_from_file_json w0 data); exact H |].
  split; [exact Hfail |].
  intros Hj Ht.
  destruct (load_txt_raises w0 Ht) as (e & w1 & Hl).
  apply (Hfail e w1). rewrite (load_from_file_fallback w0 Hj). exact Hl.
Qed.

(** C7, as the code has it. When the JSON file parses and has both keys,
    the load succeeds ([files_loaded] stays true): a list that is [null]
    is read as empty and the other list is loaded intact. When either key
    is absent the load fails, and the ledger starts empty with
    [files_loaded] false. *)
Theorem json_list_fields :
  forall a w data,
    finance_data_json (disk w) = Some (Json data) ->
    (forall e i,
       data_expenses data = Some e -> data_incomes data = Some i ->
       exists w',
         __init__ a w = (Ok tt, w')
         /\ expenses (self w')
            = match e with JNull => [] | JArray items => items end
         /\ incomes (self w')
            = match i with JNull => [] | JArray items => items end
         /\ files_loaded (self w') = true)
    /\ (data_expenses data = None \/ data_incomes data = None ->
        exists w',
          __init__ a w = (Ok tt, w')
          /\ expenses (self w') = [] /\ incomes (self w') = []
          /\ files_loaded (self w') = false).
Proof.
  intros a w data Hd.
  pose proof (init_run a w) as Hi.
  rewrite (load_from_file_json (with_self (fresh a) w) data Hd) in Hi.
  pose proof (load_json_run (with_self (fresh a) w)) as Hj.
  simpl in Hj. rewrite Hd in Hj.
  split.
  - intros e i He Hin. rewrite He, Hin in Hj. rewrite Hj in Hi. rewrite Hi.
    eexists; split; [reflexivity |]. simpl. auto.
  - intros H.
    destruct (data_expenses data) as [e |].
    + destruct (data_incomes data) as [i |].
      * destruct H as [H | H]; discriminate.
      * rewrite Hj in Hi. rewrite Hi. eexists; split; [reflexivity |]. simpl. auto.
    + rewrite Hj in Hi. rewrite Hi. eexists; split; [reflexivity |]. simpl. auto.
Qed.

(** ** The invariants *)

Lemma invariant_appended_income (d : DataHandler) source amount :
  invariant d = true -> ge0 amount = true -> nonblank source = true ->
  invariant (appended_income source amount d) = true.
Proof.
  unfold invariant. intros H Ha Hs. apply andb_prop in H. destruct H as [Hi He].
  simpl. rewrite forallb_app, Hi, He. simpl.
  unfold valid_income. simpl. rewrite Ha, Hs. reflexivity.
Qed.

Lemma invariant_appended_expense (d : DataHandler) description category amount date :
  invariant d = true -> ge0 amount = true ->
  nonblank description = true -> nonblank category = true ->
  date_parses date = true ->
  invariant (appended_expense description category amount date d) = true.
Proof.
  unfold invariant. intros H Ha Hd Hc Hp. apply andb_prop in H. destruct H as [Hi He].
  simpl. rewrite forallb_app, Hi, He. simpl.
  unfold valid_expense. simpl. rewrite Ha, Hd, Hc, Hp. reflexivity.
Qed.

(** C8, as the code has it. Where every number that is not below 0 is at
    least 0 (no NaN) and the system date is a date of the calendar, each
    of [add_income], [add_expense], [delete_income] and [delete_expense]
    keeps the invariants, whether it returns or raises. Construction
    keeps them when the load fails, and when the JSON file parses and the
    records it holds satisfy them: the loader itself validates nothing. *)
Theorem operations_keep_invariants :
  (forall x, lt0 x = false -> ge0 x = true) ->
  (forall w,
     _check_date_fields (today w) = true ->
     invariant (self w) = true ->
     (forall source amount,
        invariant (self (snd (add_income source amount w))) = true)
     /\ (forall description category amount date,
           invariant (self (snd (add_expense description category amount date w)))
           = true)
     /\ (forall index, invariant (self (snd (delete_income index w))) = true)
     /\ (forall index, invariant (self (snd (delete_expense index w))) = true))
  /\
  (forall a w,
     (forall e w1,
        load_from_file (with_self (fresh a) w) = (Raise e, w1) ->
        invariant (self (snd (__init__ a w))) = true)
     /\ (forall data e i,
           finance_data_json (disk w) = Some (Json data) ->
           data_expenses data = Some e -> data_incomes data = Some i ->
           forallb valid_expense (or_empty e) = true ->
           forallb valid_income (or_empty i) = true ->
           invariant (self (snd (__init__ a w))) = true)).
Proof.
  intros Htotal. split.
  - intros w Ht Hinv. repeat split.
    + intros source amount.
      destruct (lt0 amount) eqn:Hlt.
      { destruct (add_income_rejects w source amount (or_introl Hlt)) as [msg ->].
        exact Hinv. }
      destruct (is_empty (strip source)) eqn:Hsrc.
      { destruct (add_income_rejects w source amount (or_intror Hsrc)) as [msg ->].
        exact Hinv. }
      rewrite (add_income_accepts w source amount Hlt Hsrc), save_to_file_self.
      simpl. apply invariant_appended_income; [exact Hinv | auto |].
      unfold nonblank. rewrite Hsrc. reflexivity.
    + intros description category amount date.
      assert (Hrej :
        is_empty (strip category) = true \/ is_empty (strip description) = true
        \/ lt0 amount = true \/ (exists e, parse_date (today w) date = Raise e) ->
        invariant (self (snd (add_expense description category amount date w)))
        = true).
      { intros H.
        destruct (add_expense_rejects w description category amount date H)
          as (e & -> & _). exact Hinv. }
      destruct (is_empty (strip category)) eqn:Hc; [auto |].
      destruct (is_empty (strip description)) eqn:Hd; [auto |].
      destruct (lt0 amount) eqn:Hlt; [auto |].
      destruct (parse_date (today w) date) as [parsed | e] eqn:Hp; [| eauto 6].
      rewrite (add_expense_accepts w _ _ _ _ parsed Hc Hd Hlt Hp), save_to_file_self.
      simpl. apply invariant_appended_expense; auto.
      * unfold nonblank. rewrite Hd. reflexivity.
      * unfold nonblank. rewrite Hc. reflexivity.
      * exact (parse_date_parses _ _ _ Ht Hp).
    + intros index.
      set (n := Z.of_nat (length (incomes (self w)))).
      destruct (delete_income_run w index) as [Hin Hout]. fold n in Hin, Hout.
      destruct (Z_lt_le_dec index (- n)) as [Hlo | Hlo];
        [rewrite Hout by auto; exact Hinv |].
      destruct (Z_lt_le_dec index n) as [Hhi | Hhi];
        [| rewrite Hout by auto; exact Hinv].
      destruct Hin as (w' & -> & Hinc & Hexp & _); [lia |].
      simpl. unfold invariant in *. rewrite Hinc, Hexp.
      apply andb_prop in Hinv. destruct Hinv as [Hi He].
      rewrite He, (forallb_delete _ _ _ Hi). reflexivity.
    + intros index.
      set (n := Z.of_nat (length (expenses (self w)))).
      destruct (delete_expense_run w index) as [Hin Hout]. fold n in Hin, Hout.
      destruct (Z_lt_le_dec index (- n)) as [Hlo | Hlo];
        [rewrite Hout by auto; exact Hinv |].
      destruct (Z_lt_le_dec index n) as [Hhi | Hhi];
        [| rewrite Hout by auto; exact Hinv].
      destruct Hin as (w' & -> & Hexp & Hinc & _); [lia |].
      simpl. unfold invariant in *. rewrite Hinc, Hexp.
      apply andb_prop in Hinv. destruct Hinv as [Hi He].
      rewrite Hi, (forallb_delete _ _ _ He). reflexivity.
  - intros a w. split.
    + intros e w1 Hl. pose proof (init_run a w) as Hi.
      rewrite Hl in Hi. rewrite Hi. reflexivity.
    + intros data e i Hd He Hin Hve Hvi.
      pose proof (init_run a w) as Hi.
      rewrite (load_from_file_json (with_self (fresh a) w) data Hd) in Hi.
      pose proof (load_json_run (with_self (fresh a) w)) as Hj.
      simpl in Hj. rewrite Hd, He, Hin in Hj. rewrite Hj in Hi. rewrite Hi.
      simpl. unfold invariant. simpl. rewrite Hve, Hvi. reflexivity.
Qed.

End Properties.

(** * The test suite's scenarios *)

(** Run on an empty ledger in test mode. *)
Example scenario_balance :
  let w := snd ((add_income "job" 1123 ;;;
                 add_expense "car lease" "transportation" 500 "2024-01-20")
                  (with_self (fresh false) (sample_world false))) in
  total_income (self w) = 1123 /\ total_expenses (self w) = 500
  /\ balance (self w) = 623.
Proof. repeat split. Qed.

Example scenario_total_income :
  let w := snd ((add_income "job" 1123 ;;; add_income "stocks" 1000 ;;;
                 add_income "side hustle" 100)
                  (with_self (fresh false) (sample_world false))) in
  total_income (self w) = 2223.
Proof. reflexivity. Qed.

Example parse_float_tests :
  @parse_float int_Number "12" "Amount" = Ok 12
  /\ @parse_float int_Number "-1" "Amount"
     = Raise (ValueError "Amount can't be negative.")
  /\ @parse_float int_Number "This should throw an exception" "Amount"
     = Raise (ValueError "Amount must be a number.").
Proof. repeat split. Qed.

(** With the JSON file gone, or no longer JSON, the text file that
    [save_to_file] wrote brings the same ledger back. *)
Example fallback_reads_what_save_wrote :
  let saved := snd (save_to_file (sample_world true)) in
  let without_json :=
    with_disk {| finance_data_json := None;
                 finance_data_txt := finance_data_txt (disk saved) |} saved in
  let broken_json :=
    with_disk {| finance_data_json := Some NotJson;
                 finance_data_txt := finance_data_txt (disk saved) |} saved in
  finance_data_txt (disk saved)
  = Some ("Expense|car lease|transportation|500|2024-01-20" ++ newline
          ++ "Income|job|1123" ++ newline)%string
  /\ self (snd (__init__ true without_json)) = sample_handler true
  /\ self (snd (__init__ true broken_json)) = sample_handler true.
Proof. repeat split. Qed.

(** * The failing claims, on the sample states *)

(** C7 fails as stated: with the incomes present and the ["expenses"] key
    absent, the load raises [KeyError]; the ledger starts empty, without
    the incomes of the file, and with the failure flagged. *)
Lemma absent_list_fails_the_load :
  fst (load_from_file absent_expenses_world) = Raise (KeyError "expenses")
  /\ fst (__init__ true absent_expenses_world) = Ok tt
  /\ incomes (self (snd (__init__ true absent_expenses_world))) = []
  /\ files_loaded (self (snd (__init__ true absent_expenses_world))) = false.
Proof. repeat split. Qed.

(** C8 fails as stated, twice over. The loader stores what the files
    hold: a JSON file, or with no JSON file a text file, whose records
    have a blank source, a negative amount or a date that does not parse
    is loaded without complaint. And [add_income] lets a NaN through,
    since [nan < 0] is false: the amount stored is not [>= 0]. *)
Lemma loaded_records_are_not_validated :
  (fst (__init__ true invalid_json_world) = Ok tt
   /\ files_loaded (self (snd (__init__ true invalid_json_world))) = true
   /\ incomes (self (snd (__init__ true invalid_json_world)))
      = [{| source := "  "; income_amount := -5 |}]
   /\ invariant (self (snd (__init__ true invalid_json_world))) = false)
  /\
  (files_loaded (self (snd (__init__ true invalid_txt_world))) = true
   /\ incomes (self (snd (__init__ true invalid_txt_world)))
      = [{| source := " "; income_amount := -5 |}]
   /\ invariant (self (snd (__init__ true invalid_txt_world))) = false)
  /\
  (fst (@add_income nan_Number "gift" None nan_world) = Ok tt
   /\ @invariant nan_Number
        (self (snd (@add_income nan_Number "gift" None nan_world))) = false).
Proof. repeat split. Qed.

(** C9 fails as stated: on a list of two incomes the index [-1] is outside
    [0 .. 1], and [delete_income] removes the last record instead of
    raising. *)
Lemma delete_negative_index_removes_last :
  length (incomes (self two_incomes_world)) = 2%nat
  /\ fst (delete_income (-1) two_incomes_world) = Ok tt
  /\ incomes (self (snd (delete_income (-1) two_incomes_world)))
     = [{| source := "job"; income_amount := 1123 |}].
Proof. repeat split. Qed.

(** * The theorems at work on the sample states *)

Lemma add_appends_one_record_witness :
  (is_empty (strip "stocks") = false
   /\ ge0 (1000 : @number int_Number) = true
   /\ exists w',
        add_income "stocks" 1000 (sample_world true) = (Ok tt, w')
        /\ incomes (self w')
           = incomes (self (sample_world true))
             ++ [{| source := "stocks"; income_amount := 1000 |}]
        /\ expenses (self w') = expenses (self (sample_world true))
        /\ total_income (self w') = add (total_income (self (sample_world true))) 1000)
  /\
  (parse_date (today (sample_world true)) " 2024-01-01 " = Ok "2024-01-01"%string
   /\ exists w',
        add_expense "rent" "housing" 2000 " 2024-01-01 " (sample_world true)
        = (Ok tt, w')
        /\ expenses (self w')
           = expenses (self (sample_world true))
             ++ [{| description := "rent"; category := "housing";
                    expense_amount := 2000; date := "2024-01-01" |}]
        /\ incomes (self w') = incomes (self (sample_world true))
        /\ total_expenses (self w')
           = add (total_expenses (self (sample_world true))) 2000).
Proof.
  split.
  - split; [reflexivity |]. split; [reflexivity |].
    apply (proj1 add_appends_one_record); reflexivity.
  - split; [reflexivity |].
    apply (proj2 add_appends_one_record); reflexivity.
Defined.

Lemma add_raises_iff_invalid_witness :
  lt0 (-1 : @number int_Number) = true
  /\ (exists msg, fst (add_income "job" (-1) (sample_world false)) = Raise (ValueError msg))
  /\ snd (add_income "job" (-1) (sample_world false)) = sample_world false.
Proof.
  split; [reflexivity |].
  destruct (proj1 add_raises_iff_invalid (sample_world false) "job"%string (-1))
    as [[_ Hraise] Hsame].
  destruct (Hraise (or_introl eq_refl)) as [msg Hmsg].
  split; [exists msg; exact Hmsg |].
  exact (Hsame _ Hmsg).
Defined.

Lemma fields_stored_verbatim_witness :
  lt0 (5 : @number int_Number) = false
  /\ strip " job " <> " job "%string
  /\ exists w',
       add_income " job " 5 (sample_world false) = (Ok tt, w')
       /\ source <$> last (incomes (self w')) = Some " job "%string.
Proof.
  split; [reflexivity |].
  exact (proj1 (proj2 fields_stored_verbatim) (sample_world false) 5 eq_refl).
Defined.

Lemma delete_by_index_witness :
  (- 2 <= -1 < 2
   /\ exists w',
        delete_income (-1) two_incomes_world = (Ok tt, w')
        /\ S (length (incomes (self w'))) = length (incomes (self two_incomes_world))
        /\ (forall j : nat,
              incomes (self w') !! j
              = incomes (self two_incomes_world) !!
                  (if decide (j < position 2 (-1))%nat then j else S j))
        /\ expenses (self w') = expenses (self two_incomes_world))
  /\ (2 <= 2 /\ delete_income 2 two_incomes_world = (Raise IndexError, two_incomes_world)).
Proof.
  split.
  - split; [lia |].
    apply (proj1 (proj1 delete_by_index two_incomes_world (-1))). simpl. lia.
  - split; [lia |].
    apply (proj2 (proj1 delete_by_index two_incomes_world 2)). simpl. lia.
Defined.

Lemma parse_date_cases_witness :
  (is_empty (strip "  ") = true
   /\ parse_date sample_today "  " = Ok (strftime sample_today))
  /\ (is_empty (strip " 2024-1-5 ") = false
      /\ date_text (strip " 2024-1-5 ")
      /\ parse_date sample_today " 2024-1-5 " = Ok (strip " 2024-1-5 "))
  /\ (yyyy_mm_dd_grouping (strip "2024-01-20") = true
      /\ _check_date_fields (grouped_fields (strip "2024-01-20")) = true
      /\ parse_date sample_today "2024-01-20" = Ok (strip "2024-01-20"))
  /\ (is_empty (strip "2024-13-01") = false
      /\ ~ date_text (strip "2024-13-01")
      /\ parse_date sample_today "2024-13-01" = Raise (ValueError date_format_message)).
Proof.
  assert (Hshort : date_text (strip " 2024-1-5 ")).
  { exists "2024"%string, "1"%string, "5"%string.
    split; [constructor; reflexivity |].
    split; [apply month_d; reflexivity |].
    split; [apply day_d; reflexivity |].
    split; reflexivity. }
  assert (Hbad : ~ date_text (strip "2024-13-01")).
  { intros H. destruct (date_text_strptime _ H) as [dt Hdt]. discriminate Hdt. }
  split; [split; [reflexivity |] |].
  { apply (proj1 (parse_date_cases sample_today "  ")). reflexivity. }
  split; [split; [reflexivity |]; split; [exact Hshort |] |].
  { apply (proj1 (proj2 (parse_date_cases sample_today " 2024-1-5 "))).
    - reflexivity.
    - exact Hshort. }
  split; [split; [reflexivity |]; split; [reflexivity |] |].
  { apply (proj1 (proj2 (proj2 (parse_date_cases sample_today "2024-01-20"))));
      reflexivity. }
  split; [reflexivity |]. split; [exact Hbad |].
  apply (proj2 (proj2 (proj2 (parse_date_cases sample_today "2024-13-01")))).
  - reflexivity.
  - exact Hbad.
Defined.

Lemma save_then_load_round_trip_witness :
  autosave (self (sample_world true)) = true
  /\ exists w1 w2,
       save_to_file (sample_world true) = (Ok tt, w1)
       /\ __init__ true {| self := self two_incomes_world; disk := disk w1;
                           today := sample_today |}
          = (Ok tt, w2)
       /\ incomes (self w2) = incomes (self (sample_world true))
       /\ expenses (self w2) = expenses (self (sample_world true))
       /\ files_loaded (self w2) = true
       /\ autosave (self w2) = true
       /\ disk w2 = disk w1.
Proof.
  split; [reflexivity |].
  apply (save_then_load_round_trip (sample_world true) true
           (self two_incomes_world) sample_today).
  reflexivity.
Defined.

Lemma init_absorbs_load_failure_witness :
  finance_data_json (disk unknown_tag_world) = None
  /\ In ("Refund|shop|20" ++ newline)%string
        (readlines (universal_newlines ("Income|job|1123" ++ newline ++ "Refund|shop|20" ++ newline)))
  /\ malformed_line ("Refund|shop|20" ++ newline) = true
  /\ exists w',
       __init__ true unknown_tag_world = (Ok tt, w')
       /\ incomes (self w') = [] /\ expenses (self w') = []
       /\ files_loaded (self w') = false.
Proof.
  split; [reflexivity |].
  split; [right; left; reflexivity |].
  split; [reflexivity |].
  apply (proj2 (proj2 (proj2 (proj2 (init_absorbs_load_failure true unknown_tag_world))))).
  - left; reflexivity.
  - right. eexists _, _. split; [reflexivity |].
    split; [right; left; reflexivity | reflexivity].
Defined.

Lemma json_list_fields_witness :
  finance_data_json (disk null_expenses_world)
  = Some (Json {| data_incomes :=
                    Some (JArray [{| source := "job"; income_amount := 1123 |}]);
                  data_expenses := Some JNull |})
  /\ exists w',
       __init__ true null_expenses_world = (Ok tt, w')
       /\ expenses (self w') = []
       /\ incomes (self w') = [{| source := "job"; income_amount := 1123 |}]
       /\ files_loaded (self w') = true.
Proof.
  split; [reflexivity |].
  exact (proj1 (json_list_fields true null_expenses_world _ eq_refl)
           JNull (JArray [{| source := "job"; income_amount := 1123 |}])
           eq_refl eq_refl).
Defined.

Lemma operations_keep_invariants_witness :
  (forall x : @number int_Number, lt0 x = false -> ge0 x = true)
  /\ _check_date_fields (today (sample_world false)) = true
  /\ invariant (self (sample_world false)) = true
  /\ invariant (self (snd (add_expense "rent" "housing" 2000 EmptyString (sample_world false))))
     = true
  /\ invariant (self (snd (delete_income (-1) (sample_world false)))) = true.
Proof.
  assert (Htotal : forall x : @number int_Number, lt0 x = false -> ge0 x = true).
  { intros x H. simpl in *. lia. }
  split; [exact Htotal |].
  split; [reflexivity |]. split; [reflexivity |].
  destruct (proj1 (operations_keep_invariants Htotal) (sample_world false) eq_refl eq_refl)
    as (_ & Hexp & Hdel & _).
  split; [apply Hexp | apply Hdel].
Defined.

(** * Further properties of the code *)

Section More.
Context `{Num : Number}.
Implicit Types (w : World).

(** ** Blanks *)

Lemma lstrip_shape s :
  lstrip s = EmptyString \/ exists c r, lstrip s = String c r /\ isspace c = false.
Proof.
  induction s as [| c s IH]; simpl; [auto |].
  destruct (isspace c) eqn:Hc; [exact IH | right; eauto].
Qed.

Lemma rstrip_head c r :
  isspace c = false -> rstrip (String c r) = String c (rstrip r).
Proof. intros Hc. simpl. rewrite Hc. reflexivity. Qed.

Lemma rstrip_idem s : rstrip (rstrip s) = rstrip s.
Proof.
  induction s as [| c s IH]; simpl; [reflexivity |].
  destruct (isspace c && is_empty (rstrip s)) eqn:Hc; [reflexivity |].
  simpl. rewrite IH, Hc. reflexivity.
Qed.

Lemma lstrip_head c r : isspace c = false -> lstrip (String c r) = String c r.
Proof. intros Hc. simpl. rewrite Hc. reflexivity. Qed.

Lemma strip_idem s : strip (strip s) = strip s.
Proof.
  unfold strip.
  destruct (lstrip_shape s) as [-> | (c & r & -> & Hc)]; [reflexivity |].
  rewrite (rstrip_head c r Hc), (lstrip_head c _ Hc).
  rewrite <- (rstrip_head c r Hc). apply rstrip_idem.
Qed.

Lemma strip_fixed c r :
  isspace c = false -> rstrip (String c r) = String c r ->
  strip (String c r) = String c r.
Proof. intros Hc Hr. unfold strip. rewrite (lstrip_head c r Hc). exact Hr. Qed.


Lemma rstrip_snoc p c :
  isspace c = false -> rstrip (p ++ String c EmptyString) = (p ++ String c EmptyString)%string.
Proof.
  intros Hc. induction p as [| x p IH]; simpl; [rewrite Hc; reflexivity |].
  rewrite IH. destruct p; simpl; rewrite andb_false_r; reflexivity.
Qed.

Lemma isdigit_not_space c : isdigit c = true -> isspace c = false.
Proof. intros H. apply isdigit_cases in H. simpl in H. intuition (subst; reflexivity). Qed.

Lemma between_1_9_not_space c : between "1" "9" c = true -> isspace c = false.
Proof. intros H. apply between_1_9 in H. simpl in H. intuition (subst; reflexivity). Qed.

Lemma between_0_1_not_space c : between "0" "1" c = true -> isspace c = false.
Proof. intros H. apply between_0_1 in H. simpl in H. intuition (subst; reflexivity). Qed.

(** A text with its last character set apart. *)
Ltac split_last s :=
  lazymatch s with
  | String ?c EmptyString => constr:((EmptyString, c))
  | String ?x ?r =>
      let pc := split_last r in
      lazymatch pc with
      | (?p, ?c) => constr:((String x p, c))
      end
  end.

(** A text that [strptime] accepts has no blanks around it. *)
Lemma strptime_stripped s dt : strptime s = Some dt -> strip s = s /\ is_empty s = false.
Proof.
  intros H. apply strptime_date_text in H.
  destruct H as (y & m & d & Hy & Hm & Hd & -> & _).
  destruct Hy as [a b c e Ha Hb Hc He].
  split; [| reflexivity].
  apply strip_fixed; [apply isdigit_not_space; exact Ha |].
  destruct Hm as [m1 Hm1 | m1 Hm1 | m1 Hm1];
    destruct Hd as [d1 Hd1 | d1 Hd1 | d1 Hd1 | d1 d2 Hd1 Hd2 | d1 Hd1];
    match goal with
    | |- rstrip ?s = _ =>
        match s with
        | context [String ?last EmptyString] =>
            let s' := eval cbn [String.append] in s in
            change s with s'
        end
    end.
  all: match goal with
       | |- rstrip ?s = _ =>
           let pc := split_last s in
           match pc with
           | (?p, ?c) =>
               change s with (p ++ String c EmptyString)%string;
               apply rstrip_snoc
           end
       end;
    first [ apply between_1_9_not_space; assumption
          | apply between_0_1_not_space; assumption
          | apply isdigit_not_space; assumption ].
Qed.

Lemma parse_date_fixed today text parsed :
  _check_date_fields today = true ->
  parse_date today text = Ok parsed ->
  exists dt, strptime parsed = Some dt.
Proof.
  intros Ht H. unfold parse_date in H. destruct (is_empty (strip text)).
  - injection H as <-. exists today. apply strptime_strftime. exact Ht.
  - destruct (strptime (strip text)) as [dt |] eqn:Hp; [| discriminate].
    injection H as <-. eauto.
Qed.

Lemma parse_date_again today text parsed :
  _check_date_fields today = true ->
  parse_date today text = Ok parsed ->
  parse_date today parsed = Ok parsed.
Proof.
  intros Ht H. destruct (parse_date_fixed today text parsed Ht H) as [dt Hs].
  destruct (strptime_stripped parsed dt Hs) as [Hfix Hne].
  unfold parse_date. rewrite Hfix, Hne, Hs. reflexivity.
Qed.

(** X1. What [parse_date] returns, with a system date that is a date of
    the calendar, has no blanks around it, is a text that [strptime]
    accepts, and is returned unchanged when parsed again, on whatever
    day. *)
Theorem parse_date_result_is_stable :
  forall today text parsed,
    _check_date_fields today = true ->
    parse_date today text = Ok parsed ->
    strip parsed = parsed
    /\ date_parses parsed = true
    /\ forall later, parse_date later parsed = Ok parsed.
Proof.
  intros today text parsed Ht H.
  destruct (parse_date_fixed today text parsed Ht H) as [dt Hs].
  destruct (strptime_stripped parsed dt Hs) as [Hfix Hne].
  split; [exact Hfix |].
  split; [unfold date_parses; rewrite Hs; reflexivity |].
  intros later. unfold parse_date. rewrite Hfix, Hne, Hs. reflexivity.
Qed.

(** ** The shape of a mutation: it raises and changes nothing, or it
    changes the sequences and saves. *)

Lemma add_income_shape w source amount :
  (exists e, add_income source amount w = (Raise e, w))
  \/ add_income source amount w
     = save_to_file (with_self (appended_income source amount (self w)) w).
Proof.
  destruct (lt0 amount) eqn:Hlt.
  { left. destruct (add_income_rejects w source amount (or_introl Hlt)) as [msg ->]. eauto. }
  destruct (is_empty (strip source)) eqn:Hs.
  { left. destruct (add_income_rejects w source amount (or_intror Hs)) as [msg ->]. eauto. }
  right. apply add_income_accepts; assumption.
Qed.

Lemma add_expense_shape w description category amount date :
  (exists e, add_expense description category amount date w = (Raise e, w))
  \/ exists parsed,
       parse_date (today w) date = Ok parsed
       /\ add_expense description category amount date w
          = save_to_file
              (with_self
                 (appended_expense description category amount parsed (self w)) w).
Proof.
  destruct (is_empty (strip category)) eqn:Hc.
  { left. destruct (add_expense_rejects w description category amount date) as (e & -> & _); eauto. }
  destruct (is_empty (strip description)) eqn:Hd.
  { left. destruct (add_expense_rejects w description category amount date) as (e & -> & _); eauto. }
  destruct (lt0 amount) eqn:Hlt.
  { left. destruct (add_expense_rejects w description category amount date) as (e & -> & _); eauto. }
  destruct (parse_date (today w) date) as [parsed | e] eqn:Hp.
  - right. exists parsed. split; [reflexivity |]. apply add_expense_accepts; assumption.
  - left. destruct (add_expense_rejects w description category amount date) as (e' & -> & _); eauto 6.
Qed.

Lemma delete_income_shape w index :
  (delete_income index w = (Raise IndexError, w)
   /\ (index < - Z.of_nat (length (incomes (self w)))
       \/ Z.of_nat (length (incomes (self w))) <= index))
  \/ (- Z.of_nat (length (incomes (self w))) <= index
        < Z.of_nat (length (incomes (self w)))
      /\ delete_income index w
         = save_to_file
             (with_self
                (set_incomes
                   (delete (position (Z.of_nat (length (incomes (self w)))) index)
                      (incomes (self w))) (self w)) w)).
Proof.
  set (n := Z.of_nat (length (incomes (self w)))).
  destruct (Z_lt_le_dec index (- n)) as [Hlo | Hlo].
  { left. split; [| auto]. unfold delete_income, bind, get, lift.
    rewrite del_item_out_of_range by (fold n; auto). reflexivity. }
  destruct (Z_lt_le_dec index n) as [Hhi | Hhi].
  - right. split; [lia |]. unfold delete_income, bind, get, lift.
    destruct (del_item_in_range (incomes (self w)) index) as [-> _]; [fold n; lia |].
    reflexivity.
  - left. split; [| auto]. unfold delete_income, bind, get, lift.
    rewrite del_item_out_of_range by (fold n; auto). reflexivity.
Qed.

Lemma delete_expense_shape w index :
  (delete_expense index w = (Raise IndexError, w)
   /\ (index < - Z.of_nat (length (expenses (self w)))
       \/ Z.of_nat (length (expenses (self w))) <= index))
  \/ (- Z.of_nat (length (expenses (self w))) <= index
        < Z.of_nat (length (expenses (self w)))
      /\ delete_expense index w
         = save_to_file
             (with_self
                (set_expenses
                   (delete (position (Z.of_nat (length (expenses (self w)))) index)
                      (expenses (self w))) (self w)) w)).
Proof.
  set (n := Z.of_nat (length (expenses (self w)))).
  destruct (Z_lt_le_dec index (- n)) as [Hlo | Hlo].
  { left. split; [| auto]. unfold delete_expense, bind, get, lift.
    rewrite del_item_out_of_range by (fold n; auto). reflexivity. }
  destruct (Z_lt_le_dec index n) as [Hhi | Hhi].
  - right. split; [lia |]. unfold delete_expense, bind, get, lift.
    destruct (del_item_in_range (expenses (self w)) index) as [-> _]; [fold n; lia |].
    reflexivity.
  - left. split; [| auto]. unfold delete_expense, bind, get, lift.
    rewrite del_item_out_of_range by (fold n; auto). reflexivity.
Qed.

Lemma save_to_file_test_mode w :
  autosave (self w) = false -> save_to_file w = (Ok tt, w).
Proof.
  intros Ha. unfold save_to_file, bind, get. rewrite Ha. reflexivity.
Qed.

Lemma save_to_file_autosave w :
  autosave (self w) = true ->
  save_to_file w
  = (Ok tt,
     with_disk
       {| finance_data_json :=
            Some (Json {| data_incomes := Some (JArray (incomes (self w)));
                          data_expenses := Some (JArray (expenses (self w))) |});
          finance_data_txt :=
            Some (writelines (map expense_line (expenses (self w)))
                  ++ writelines (map income_line (incomes (self w))))%string |}
       w).
Proof. intros Ha. unfold save_to_file, bind, get. rewrite Ha. reflexivity. Qed.

(** X2. In test mode ([autosave] off) no method writes: after
    [save_to_file], an addition or a deletion, accepted or not, the files
    are what they were. *)
Theorem test_mode_never_writes :
  forall w,
    autosave (self w) = false ->
    disk (snd (save_to_file w)) = disk w
    /\ (forall source amount, disk (snd (add_income source amount w)) = disk w)
    /\ (forall description category amount date,
          disk (snd (add_expense description category amount date w)) = disk w)
    /\ (forall index, disk (snd (delete_income index w)) = disk w)
    /\ (forall index, disk (snd (delete_expense index w)) = disk w).
Proof.
  intros w Ha.
  split; [rewrite (save_to_file_test_mode w Ha); reflexivity |].
  split.
  { intros source amount.
    destruct (add_income_shape w source amount) as [[e ->] | ->]; [reflexivity |].
    rewrite save_to_file_test_mode by exact Ha. reflexivity. }
  split.
  { intros description category amount date.
    destruct (add_expense_shape w description category amount date)
      as [[e ->] | (parsed & _ & ->)]; [reflexivity |].
    rewrite save_to_file_test_mode by exact Ha. reflexivity. }
  split.
  { intros index.
    destruct (delete_income_shape w index) as [[-> _] | [_ ->]]; [reflexivity |].
    rewrite save_to_file_test_mode by exact Ha. reflexivity. }
  intros index.
  destruct (delete_expense_shape w index) as [[-> _] | [_ ->]]; [reflexivity |].
  rewrite save_to_file_test_mode by exact Ha. reflexivity.
Qed.


Lemma saved_reloads a w :
  autosave (self w) = true -> reloads a (snd (save_to_file w)).
Proof.
  intros Ha d0 t0. rewrite (save_to_file_autosave w Ha). simpl.
  match goal with |- exists _, __init__ a ?w1 = _ /\ _ => set (saved := w1) end.
  pose proof (init_run a saved) as Hi.
  rewrite (load_from_file_json (with_self (fresh a) saved) _ eq_refl) in Hi.
  pose proof (load_json_run (with_self (fresh a) saved)) as Hj.
  simpl in Hj. rewrite Hj in Hi.
  eexists. split; [exact Hi |]. simpl. auto.
Qed.

(** X3. Outside test mode every addition or deletion that returns has
    been saved: a ledger constructed from the files it leaves, from any
    starting object and on any day, has the two sequences the method left
    in memory, and reports the load as successful. *)
Theorem mutations_are_durable :
  forall w a,
    autosave (self w) = true ->
    (forall source amount w',
       add_income source amount w = (Ok tt, w') -> reloads a w')
    /\ (forall description category amount date w',
          add_expense description category amount date w = (Ok tt, w') ->
          reloads a w')
    /\ (forall index w', delete_income index w = (Ok tt, w') -> reloads a w')
    /\ (forall index w', delete_expense index w = (Ok tt, w') -> reloads a w').
Proof.
  intros w a Ha.
  assert (Hsave : forall d w',
    autosave d = true -> save_to_file (with_self d w) = (Ok tt, w') -> reloads a w').
  { intros d w' Hd Hs.
    pose proof (saved_reloads a (with_self d w) Hd) as Hr.
    rewrite Hs in Hr. exact Hr. }
  split.
  { intros source amount w' H.
    destruct (add_income_shape w source amount) as [[e He] | He]; rewrite He in H;
      [discriminate |].
    refine (Hsave _ _ _ H); exact Ha. }
  split.
  { intros description category amount date w' H.
    destruct (add_expense_shape w description category amount date)
      as [[e He] | (parsed & _ & He)]; rewrite He in H; [discriminate |].
    refine (Hsave _ _ _ H); exact Ha. }
  split.
  { intros index w' H.
    destruct (delete_income_shape w index) as [[He _] | [_ He]]; rewrite He in H;
      [discriminate |].
    refine (Hsave _ _ _ H); exact Ha. }
  intros index w' H.
  destruct (delete_expense_shape w index) as [[He _] | [_ He]]; rewrite He in H;
    [discriminate |].
  refine (Hsave _ _ _ H); exact Ha.
Qed.

Lemma position_last (n : nat) :
  position (Z.of_nat (S n)) (-1) = n /\ position (Z.of_nat (S n)) (Z.of_nat n) = n.
Proof.
  unfold position. change (-1 <? 0) with true. cbv iota.
  destruct (Z.ltb_spec (Z.of_nat n) 0); lia.
Qed.

Lemma delete_last {A} (l : list A) (x : A) : delete (length l) (l ++ [x]) = l.
Proof. induction l as [| y l IH]; simpl; [reflexivity | rewrite IH; reflexivity]. Qed.

Lemma save_to_file_ignores_disk w fs :
  autosave (self w) = true ->
  save_to_file (with_disk fs w) = save_to_file w.
Proof.
  intros Ha. rewrite (save_to_file_autosave w Ha).
  rewrite (save_to_file_autosave (with_disk fs w)) by exact Ha. reflexivity.
Qed.

Lemma save_after_save w d :
  autosave d = autosave (self w) ->
  save_to_file (with_self (self w) (snd (save_to_file (with_self d w))))
  = save_to_file w.
Proof.
  intros Hd. destruct (autosave (self w)) eqn:Ha.
  - rewrite (save_to_file_autosave (with_self d w)) by exact Hd. simpl.
    rewrite (save_to_file_autosave w Ha).
    unfold save_to_file, bind, get. simpl. rewrite Ha. reflexivity.
  - rewrite (save_to_file_test_mode (with_self d w)) by exact Hd. simpl.
    destruct w; reflexivity.
Qed.

(** X4. Deleting the last record right after adding it, by the index
    [-1] or by its position, undoes the addition: object and files end as
    a plain [save_to_file] of the ledger before the addition leaves them. *)
Theorem delete_undoes_add :
  (forall w source amount,
     is_empty (strip source) = false -> lt0 amount = false ->
     exists w1,
       add_income source amount w = (Ok tt, w1)
       /\ delete_income (-1) w1 = save_to_file w
       /\ delete_income (Z.of_nat (length (incomes (self w)))) w1 = save_to_file w)
  /\
  (forall w description category amount date parsed,
     is_empty (strip description) = false ->
     is_empty (strip category) = false ->
     lt0 amount = false ->
     parse_date (today w) date = Ok parsed ->
     exists w1,
       add_expense description category amount date w = (Ok tt, w1)
       /\ delete_expense (-1) w1 = save_to_file w
       /\ delete_expense (Z.of_nat (length (expenses (self w)))) w1 = save_to_file w).
Proof.
  split.
  - intros w source amount Hs Hlt.
    rewrite (add_income_accepts w source amount Hlt Hs).
    set (d := appended_income source amount (self w)).
    exists (snd (save_to_file (with_self d w))).
    split; [destruct (save_to_file_run (with_self d w)) as (fs & -> & _); reflexivity |].
    assert (Hdel : forall index,
      position (Z.of_nat (length (incomes d))) index = length (incomes (self w)) ->
      - Z.of_nat (length (incomes d)) <= index < Z.of_nat (length (incomes d)) ->
      delete_income index (snd (save_to_file (with_self d w))) = save_to_file w).
    { intros index Hpos Hr.
      destruct (save_to_file_run (with_self d w)) as (fs & Hrun & _).
      destruct (delete_income_shape (snd (save_to_file (with_self d w))) index)
        as [[_ Hout] | [_ ->]].
      { rewrite save_to_file_self in Hout.
        change (self (with_self d w)) with d in Hout. lia. }
      rewrite save_to_file_self. simpl self. rewrite Hpos.
      unfold d at 2 3. simpl incomes. rewrite delete_last.
      replace (set_incomes (incomes (self w)) (appended_income source amount (self w)))
        with (self w) by (destruct w as [[] ? ?]; reflexivity).
      apply save_after_save. reflexivity. }
    assert (Hlen : length (incomes d) = S (length (incomes (self w)))).
    { unfold d. simpl. rewrite length_app. simpl. lia. }
    rewrite Hlen in Hdel.
    destruct (position_last (length (incomes (self w)))) as [Hp1 Hp2].
    split; apply Hdel; solve [assumption | lia].
  - intros w description category amount date parsed Hd Hc Hlt Hp.
    rewrite (add_expense_accepts w _ _ _ _ parsed Hc Hd Hlt Hp).
    set (d := appended_expense description category amount parsed (self w)).
    exists (snd (save_to_file (with_self d w))).
    split; [destruct (save_to_file_run (with_self d w)) as (fs & -> & _); reflexivity |].
    assert (Hdel : forall index,
      position (Z.of_nat (length (expenses d))) index = length (expenses (self w)) ->
      - Z.of_nat (length (expenses d)) <= index < Z.of_nat (length (expenses d)) ->
      delete_expense index (snd (save_to_file (with_self d w))) = save_to_file w).
    { intros index Hpos Hr.
      destruct (delete_expense_shape (snd (save_to_file (with_self d w))) index)
        as [[_ Hout] | [_ ->]].
      { rewrite save_to_file_self in Hout.
        change (self (with_self d w)) with d in Hout. lia. }
      rewrite save_to_file_self. simpl self. rewrite Hpos.
      unfold d at 2 3. simpl expenses. rewrite delete_last.
      replace (set_expenses (expenses (self w))
                 (appended_expense description category amount parsed (self w)))
        with (self w) by (destruct w as [[] ? ?]; reflexivity).
      apply save_after_save. reflexivity. }
    assert (Hlen : length (expenses d) = S (length (expenses (self w)))).
    { unfold d. simpl. rewrite length_app. simpl. lia. }
    rewrite Hlen in Hdel.
    destruct (position_last (length (expenses (self w)))) as [Hp1 Hp2].
    split; apply Hdel; solve [assumption | lia].
Qed.

End More.

(** ** Totals after a deletion, over [int] *)

Lemma int_sum_delete {A} (f : A -> @number int_Number) (l : list A) (p : nat) (r : A) :
  l !! p = Some r ->
  int_sum (map f (delete p l)) = int_sum (map f l) - f r.
Proof.
  revert p. induction l as [| x l IH]; intros p H; [destruct p; discriminate |].
  destruct p as [| p]; simpl in *.
  - injection H as <-. lia.
  - rewrite (IH p H). lia.
Qed.

Lemma total_income_int (d : @DataHandler int_Number) :
  total_income d = int_sum (map income_amount (incomes d)).
Proof.
  unfold total_income, py_sum. simpl. rewrite fold_left_add_int_sum. reflexivity.
Qed.

Lemma total_expenses_int (d : @DataHandler int_Number) :
  total_expenses d = int_sum (map expense_amount (expenses d)).
Proof.
  unfold total_expenses, py_sum. simpl. rewrite fold_left_add_int_sum. reflexivity.
Qed.

(** X5. Over [int], deleting an income takes its amount out of
    [total_income] and out of [balance] and leaves [total_expenses] alone;
    deleting an expense takes its amount out of [total_expenses] and adds
    it to [balance]. *)
Theorem delete_lowers_total :
  (forall (w : @World int_Number) index,
     let n := Z.of_nat (length (incomes (self w))) in
     - n <= index < n ->
     exists w' r,
       delete_income index w = (Ok tt, w')
       /\ incomes (self w) !! position n index = Some r
       /\ total_income (self w') = total_income (self w) - income_amount r
       /\ total_expenses (self w') = total_expenses (self w)
       /\ balance (self w') = balance (self w) - income_amount r)
  /\
  (forall (w : @World int_Number) index,
     let n := Z.of_nat (length (expenses (self w))) in
     - n <= index < n ->
     exists w' r,
       delete_expense index w = (Ok tt, w')
       /\ expenses (self w) !! position n index = Some r
       /\ total_expenses (self w') = total_expenses (self w) - expense_amount r
       /\ total_income (self w') = total_income (self w)
       /\ balance (self w') = balance (self w) + expense_amount r).
Proof.
  split; intros w index n Hr.
  - destruct (proj1 (delete_income_run w index) Hr) as (w' & Hrun & Hinc & Hexp & Hp).
    fold n in Hinc, Hp.
    destruct (lookup_lt_is_Some_2 _ _ Hp) as [r Hlook].
    exists w', r. split; [exact Hrun |]. split; [exact Hlook |].
    unfold balance. rewrite !total_income_int, !total_expenses_int, Hinc, Hexp.
    rewrite (int_sum_delete income_amount _ _ r Hlook). simpl. repeat split; lia.
  - destruct (proj1 (delete_expense_run w index) Hr) as (w' & Hrun & Hexp & Hinc & Hp).
    fold n in Hexp, Hp.
    destruct (lookup_lt_is_Some_2 _ _ Hp) as [r Hlook].
    exists w', r. split; [exact Hrun |]. split; [exact Hlook |].
    unfold balance. rewrite !total_income_int, !total_expenses_int, Hinc, Hexp.
    rewrite (int_sum_delete expense_amount _ _ r Hlook). simpl. repeat split; lia.
Qed.

(** ** The text file as the only file *)

Section Mirror.
Context `{Num : Number}.

Lemma one_line_parts s :
  one_line s = true -> has_char CR s = false /\ has_char LF s = false.
Proof.
  unfold one_line. intros H.
  apply andb_prop in H. destruct H as [H1 H2].
  apply negb_true_iff in H1, H2. auto.
Qed.

Lemma plain_parts s :
  plain s = true -> has_char "|" s = false /\ one_line s = true.
Proof.
  unfold plain. intros H.
  apply andb_prop in H. destruct H as [H1 H2].
  apply negb_true_iff in H1. auto.
Qed.

Lemma has_char_app c a b : has_char c (a ++ b) = has_char c a || has_char c b.
Proof.
  induction a as [| x a IH]; simpl; [reflexivity |].
  rewrite IH. apply orb_assoc.
Qed.

Lemma universal_newlines_no_CR s :
  has_char CR s = false -> universal_newlines s = s.
Proof.
  induction s as [| c s IH]; simpl; [reflexivity |].
  intros H. apply orb_false_elim in H. destruct H as [Hc Hs].
  rewrite Hc, (IH Hs). reflexivity.
Qed.

Lemma readlines_line body rest :
  has_char LF body = false ->
  readlines (body ++ String LF rest) = (body ++ String LF EmptyString)%string :: readlines rest.
Proof.
  induction body as [| c body IH]; simpl; intros H.
  - reflexivity.
  - apply orb_false_elim in H. destruct H as [Hc Hb].
    rewrite Hc, (IH Hb). reflexivity.
Qed.

Lemma split_no_sep sep s : has_char sep s = false -> split sep s = [s].
Proof.
  induction s as [| c s IH]; simpl; [reflexivity |].
  intros H. apply orb_false_elim in H. destruct H as [Hc Hs].
  rewrite Hc, (IH Hs). reflexivity.
Qed.

Lemma split_field sep a b :
  has_char sep a = false ->
  split sep (a ++ String sep b) = a :: split sep b.
Proof.
  induction a as [| c a IH]; simpl; intros H.
  - rewrite Ascii.eqb_refl. reflexivity.
  - apply orb_false_elim in H. destruct H as [Hc Ha].
    rewrite Hc, (IH Ha). reflexivity.
Qed.

Lemma rstrip_blank_end q c : isspace c = true -> rstrip (q ++ String c EmptyString) = rstrip q.
Proof.
  intros Hc. induction q as [| x q IH]; simpl; [rewrite Hc; reflexivity |].
  rewrite IH. reflexivity.
Qed.

Lemma rstrip_after_nonspace p c q :
  isspace c = false ->
  rstrip (p ++ String c q) = (p ++ String c (rstrip q))%string.
Proof.
  intros Hc. induction p as [| x p IH]; simpl.
  - rewrite Hc. reflexivity.
  - rewrite IH. destruct p; simpl; rewrite andb_false_r; reflexivity.
Qed.


Lemma rstrip_newline q : rstrip (q ++ newline) = rstrip q.
Proof. apply rstrip_blank_end. reflexivity. Qed.

Lemma rstrip_field p q :
  rstrip (p ++ "|" ++ q) = (p ++ "|" ++ rstrip q)%string.
Proof. exact (rstrip_after_nonspace p "|" q eq_refl). Qed.

Lemma strip_income_line (i : Income) :
  strip (income_line i)
  = ("Income|" ++ source i ++ "|" ++ rstrip (py_format (income_amount i)))%string.
Proof.
  unfold strip.
  replace (lstrip (income_line i)) with (income_line i) by reflexivity.
  unfold income_line.
  change ("Income|" ++ ?x)%string with ("Income" ++ "|" ++ x)%string.
  rewrite !rstrip_field, rstrip_newline. reflexivity.
Qed.

Lemma strip_expense_line (e : Expense) :
  strip (expense_line e)
  = ("Expense|" ++ description e ++ "|" ++ category e ++ "|"
     ++ py_format (expense_amount e) ++ "|" ++ rstrip (date e))%string.
Proof.
  unfold strip.
  replace (lstrip (expense_line e)) with (expense_line e) by reflexivity.
  unfold expense_line.
  change ("Expense|" ++ ?x)%string with ("Expense" ++ "|" ++ x)%string.
  rewrite !rstrip_field, rstrip_newline. reflexivity.
Qed.

Lemma split_literal_field (tag rest : string) :
  has_char "|" tag = false ->
  split "|" (tag ++ "|" ++ rest) = tag :: split "|" rest.
Proof. exact (split_field "|" tag rest). Qed.

Lemma load_line_income (i : Income) w :
  plain_income i ->
  load_line (income_line i) w
  = (Ok tt, with_self (set_incomes (incomes (self w) ++ [i]) (self w)) w).
Proof.
  intros (Hs & Hf & Hr & Hp).
  destruct (plain_parts _ Hs) as (Hs1 & _).
  destruct (plain_parts _ Hf) as (Hf1 & _).
  unfold load_line. rewrite strip_income_line, Hr.
  change ("Income|" ++ ?x)%string with ("Income" ++ "|" ++ x)%string.
  rewrite (split_literal_field "Income") by reflexivity.
  rewrite (split_literal_field (source i)) by exact Hs1.
  rewrite (split_no_sep "|" _ Hf1).
  cbn [is_empty String.append nth length Nat.eqb negb String.eqb Ascii.eqb Bool.eqb].
  unfold float, bind. cbn [nth]. rewrite Hp. unfold ret, update_self.
  destruct i; reflexivity.
Qed.

Lemma load_line_expense (e : Expense) w :
  plain_expense e ->
  load_line (expense_line e) w
  = (Ok tt, with_self (set_expenses (expenses (self w) ++ [e]) (self w)) w).
Proof.
  intros (Hd & Hc & Hf & Hp & Hdt & Hr).
  destruct (plain_parts _ Hd) as (Hd1 & _).
  destruct (plain_parts _ Hc) as (Hc1 & _).
  destruct (plain_parts _ Hf) as (Hf1 & _).
  destruct (plain_parts _ Hdt) as (Hdt1 & _).
  unfold load_line. rewrite strip_expense_line, Hr.
  change ("Expense|" ++ ?x)%string with ("Expense" ++ "|" ++ x)%string.
  rewrite (split_literal_field "Expense") by reflexivity.
  rewrite (split_literal_field (description e)) by exact Hd1.
  rewrite (split_literal_field (category e)) by exact Hc1.
  rewrite (split_literal_field (py_format (expense_amount e))) by exact Hf1.
  rewrite (split_no_sep "|" _ Hdt1).
  cbn [is_empty String.append nth length Nat.eqb negb String.eqb Ascii.eqb Bool.eqb].
  unfold float, bind. cbn [nth]. rewrite Hp. unfold ret, update_self.
  destruct e; reflexivity.
Qed.


Lemma readlines_lines (ls : list string) (rest : string) :
  Forall is_line ls ->
  readlines (writelines ls ++ rest) = ls ++ readlines rest.
Proof.
  induction 1 as [| l ls (body & -> & Hb) _ IH]; simpl; [reflexivity |].
  rewrite !append_assoc. change (newline ++ ?x)%string with (String LF x).
  rewrite (readlines_line body _ Hb), IH. reflexivity.
Qed.

Lemma has_char_writelines c (ls : list string) :
  Forall (fun l => has_char c l = false) ls -> has_char c (writelines ls) = false.
Proof.
  induction 1 as [| l ls Hl _ IH]; simpl; [reflexivity |].
  rewrite has_char_app, Hl, IH. reflexivity.
Qed.

Lemma income_line_is_line (i : Income) :
  one_line (source i) = true -> one_line (py_format (income_amount i)) = true ->
  is_line (income_line i) /\ has_char CR (income_line i) = false.
Proof.
  intros Hs Hf.
  destruct (one_line_parts _ Hs) as (Hs2 & Hs3).
  destruct (one_line_parts _ Hf) as (Hf2 & Hf3).
  split.
  - exists ("Income|" ++ source i ++ "|" ++ py_format (income_amount i))%string.
    split; [unfold income_line; rewrite !append_assoc; reflexivity |].
    rewrite !has_char_app, Hs3, Hf3. reflexivity.
  - unfold income_line. rewrite !has_char_app, Hs2, Hf2. reflexivity.
Qed.

Lemma expense_line_is_line (e : Expense) :
  one_line (description e) = true -> one_line (category e) = true ->
  one_line (py_format (expense_amount e)) = true -> one_line (date e) = true ->
  is_line (expense_line e) /\ has_char CR (expense_line e) = false.
Proof.
  intros Hd Hc Hf Hdt.
  destruct (one_line_parts _ Hd) as (Hd2 & Hd3).
  destruct (one_line_parts _ Hc) as (Hc2 & Hc3).
  destruct (one_line_parts _ Hf) as (Hf2 & Hf3).
  destruct (one_line_parts _ Hdt) as (Hdt2 & Hdt3).
  split.
  - exists ("Expense|" ++ description e ++ "|" ++ category e ++ "|"
            ++ py_format (expense_amount e) ++ "|" ++ date e)%string.
    split; [unfold expense_line; rewrite !append_assoc; reflexivity |].
    rewrite !has_char_app, Hd3, Hc3, Hf3, Hdt3. reflexivity.
  - unfold expense_line. rewrite !has_char_app, Hd2, Hc2, Hf2, Hdt2. reflexivity.
Qed.

Lemma for_each_app {A} (xs ys : list A) (body : A -> M unit) w :
  for_each (xs ++ ys) body w
  = match for_each xs body w with
    | (Ok _, w1) => for_each ys body w1
    | (Raise e, w1) => (Raise e, w1)
    end.
Proof.
  revert w. induction xs as [| x xs IH]; intros w; simpl; [reflexivity |].
  unfold bind. destruct (body x w) as [[[] | e] w1]; [apply IH | reflexivity].
Qed.

Lemma for_each_expense_lines (es : list Expense) w :
  Forall plain_expense es ->
  for_each (map expense_line es) load_line w
  = (Ok tt, with_self (set_expenses (expenses (self w) ++ es) (self w)) w).
Proof.
  intros H. revert w. induction H as [| e es He _ IH]; intros w; simpl.
  - rewrite app_nil_r. destruct w as [[] ? ?]; reflexivity.
  - unfold bind. rewrite (load_line_expense e w He), IH. simpl.
    rewrite <- app_assoc. reflexivity.
Qed.

Lemma for_each_income_lines (ins : list Income) w :
  Forall plain_income ins ->
  for_each (map income_line ins) load_line w
  = (Ok tt, with_self (set_incomes (incomes (self w) ++ ins) (self w)) w).
Proof.
  intros H. revert w. induction H as [| i ins Hi _ IH]; intros w; simpl.
  - rewrite app_nil_r. destruct w as [[] ? ?]; reflexivity.
  - unfold bind. rewrite (load_line_income i w Hi), IH. simpl.
    rewrite <- app_assoc. reflexivity.
Qed.

Lemma plain_income_one_line i : plain_income i -> one_line_income i.
Proof.
  intros (H1 & H2 & _). split; [apply (plain_parts _ H1) | apply (plain_parts _ H2)].
Qed.

Lemma plain_expense_one_line e : plain_expense e -> one_line_expense e.
Proof.
  intros (H1 & H2 & H3 & _ & H4 & _).
  repeat split; [apply (plain_parts _ H1) | apply (plain_parts _ H2)
                | apply (plain_parts _ H3) | apply (plain_parts _ H4)].
Qed.

Lemma mirror_text_lines (d : DataHandler) :
  Forall one_line_income (incomes d) ->
  Forall one_line_expense (expenses d) ->
  readlines (universal_newlines (mirror_text d))
  = map expense_line (expenses d) ++ map income_line (incomes d).
Proof.
  intros Hi He. unfold mirror_text.
  assert (Hil : Forall (fun l => is_line l /\ has_char CR l = false)
                  (map income_line (incomes d))).
  { apply Forall_map. eapply Forall_impl; [exact Hi |].
    intros i [H1 H2]. apply income_line_is_line; assumption. }
  assert (Hel : Forall (fun l => is_line l /\ has_char CR l = false)
                  (map expense_line (expenses d))).
  { apply Forall_map. eapply Forall_impl; [exact He |].
    intros e (H1 & H2 & H3 & H4). apply expense_line_is_line; assumption. }
  rewrite universal_newlines_no_CR.
  - rewrite readlines_lines by (eapply Forall_impl; [exact Hel | intros l [H _]; exact H]).
    rewrite <- (append_empty_r (writelines (map income_line (incomes d)))).
    rewrite readlines_lines by (eapply Forall_impl; [exact Hil | intros l [H _]; exact H]).
    rewrite app_nil_r. reflexivity.
  - rewrite has_char_app, !has_char_writelines; [reflexivity | |].
    + eapply Forall_impl; [exact Hil | intros l [_ H]; exact H].
    + eapply Forall_impl; [exact Hel | intros l [_ H]; exact H].
Qed.

(** X6. The text file that [save_to_file] writes is enough to get the
    ledger back: when no field holds a separator, a carriage return or a
    line feed, the date and the printed amount of an income end in no
    blank, and [float] reads each printed amount back, a ledger
    constructed from that text file, with the JSON file missing or not
    JSON, from any starting object and on any day, has both sequences as
    they were saved. *)
Theorem text_mirror_round_trip :
  forall w a j d0 t0,
    autosave (self w) = true ->
    Forall plain_income (incomes (self w)) ->
    Forall plain_expense (expenses (self w)) ->
    j = None \/ j = Some NotJson ->
    exists w2,
      __init__ a
        {| self := d0;
           disk := {| finance_data_json := j;
                      finance_data_txt :=
                        finance_data_txt (disk (snd (save_to_file w))) |};
           today := t0 |}
      = (Ok tt, w2)
      /\ incomes (self w2) = incomes (self w)
      /\ expenses (self w2) = expenses (self w)
      /\ files_loaded (self w2) = true.
Proof.
  intros w a j d0 t0 Ha Hi He Hj.
  rewrite (save_to_file_autosave w Ha).
  cbn [snd disk with_disk finance_data_txt].
  fold (mirror_text (self w)).
  match goal with |- exists _, __init__ a ?w0 = _ /\ _ => set (w1 := w0) end.
  pose proof (init_run a w1) as Hinit.
  rewrite (load_from_file_fallback (with_self (fresh a) w1)) in Hinit
    by (simpl; exact Hj).
  assert (Hload : load_txt (with_self (fresh a) w1)
    = (Ok tt,
       with_self (set_incomes (incomes (self w))
                    (set_expenses (expenses (self w)) (fresh a))) w1)).
  { unfold load_txt, open_txt, bind, get, ret. simpl.
    rewrite mirror_text_lines.
    - rewrite for_each_app, (for_each_expense_lines _ _ He).
      rewrite (for_each_income_lines _ _ Hi). reflexivity.
    - eapply Forall_impl; [exact Hi | apply plain_income_one_line].
    - eapply Forall_impl; [exact He | apply plain_expense_one_line]. }
  rewrite Hload in Hinit. eexists. split; [exact Hinit |]. simpl. auto.
Qed.


(** ** A separator inside a field *)

Lemma split_nonempty sep s : split sep s <> [].
Proof.
  destruct s as [| c s]; simpl; [discriminate |].
  destruct (Ascii.eqb c sep); [discriminate |].
  destruct (split sep s); discriminate.
Qed.

Lemma split_cons_length sep c s :
  Ascii.eqb c sep = false -> length (split sep (String c s)) = length (split sep s).
Proof.
  intros Hc. simpl. rewrite Hc.
  destruct (split sep s) eqn:Hs; [exfalso; exact (split_nonempty _ _ Hs) | reflexivity].
Qed.

Lemma split_app_length sep a b :
  length (split sep (a ++ String sep b))
  = (length (split sep a) + length (split sep b))%nat.
Proof.
  induction a as [| c a IH].
  - simpl. rewrite Ascii.eqb_refl. reflexivity.
  - destruct (Ascii.eqb c sep) eqn:Hc.
    + simpl. rewrite Hc. simpl. rewrite IH. reflexivity.
    + change (String c a ++ String sep b)%string with (String c (a ++ String sep b)).
      rewrite !split_cons_length by exact Hc. exact IH.
Qed.

Lemma split_length_sep sep s :
  has_char sep s = true -> (2 <= length (split sep s))%nat.
Proof.
  induction s as [| c s IH]; simpl; [discriminate |].
  destruct (Ascii.eqb c sep) eqn:Hc; simpl.
  - intros _. pose proof (split_nonempty sep s).
    destruct (split sep s); [congruence | simpl; lia].
  - intros H. specialize (IH H).
    destruct (split sep s); simpl in *; lia.
Qed.

Lemma split_length_pos sep s : (1 <= length (split sep s))%nat.
Proof.
  pose proof (split_nonempty sep s). destruct (split sep s); [congruence | simpl; lia].
Qed.

Lemma income_line_malformed (i : Income) :
  has_char "|" (source i) = true -> malformed_line (income_line i) = true.
Proof.
  intros Hs. unfold malformed_line. rewrite strip_income_line.
  change ("Income|" ++ ?x)%string with ("Income" ++ "|" ++ x)%string.
  rewrite (split_literal_field "Income") by reflexivity.
  cbn [nth is_empty String.append negb String.eqb Ascii.eqb Bool.eqb andb length].
  pose proof (split_app_length "|" (source i)
                (rstrip (py_format (income_amount i)))) as Hlen.
  pose proof (split_length_sep "|" _ Hs).
  pose proof (split_length_pos "|" (rstrip (py_format (income_amount i)))).
  apply negb_true_iff, Nat.eqb_neq. lia.
Qed.

Lemma expense_line_malformed (e : Expense) :
  has_char "|" (description e) = true \/ has_char "|" (category e) = true ->
  malformed_line (expense_line e) = true.
Proof.
  intros Hs. unfold malformed_line. rewrite strip_expense_line.
  change ("Expense|" ++ ?x)%string with ("Expense" ++ "|" ++ x)%string.
  rewrite (split_literal_field "Expense") by reflexivity.
  cbn [nth is_empty String.append negb String.eqb Ascii.eqb Bool.eqb andb length].
  set (rest3 := (py_format (expense_amount e) ++ String "|" (rstrip (date e)))%string).
  set (rest2 := (category e ++ String "|" rest3)%string).
  pose proof (split_app_length "|" (description e) rest2) as H1.
  pose proof (split_app_length "|" (category e) rest3) as H2.
  pose proof (split_app_length "|" (py_format (expense_amount e)) (rstrip (date e))) as H3.
  fold rest3 in H2, H3. fold rest2 in H1, H2.
  pose proof (split_length_pos "|" (description e)).
  pose proof (split_length_pos "|" (category e)).
  pose proof (split_length_pos "|" (py_format (expense_amount e))).
  pose proof (split_length_pos "|" (rstrip (date e))).
  apply negb_true_iff, Nat.eqb_neq.
  destruct Hs as [Hs | Hs]; pose proof (split_length_sep "|" _ Hs); lia.
Qed.

(** X7. The methods accept a ["|"] in a source, a description or a
    category, and the text file cannot be read back then: with the JSON
    file missing or not JSON, the ledger constructed from it is empty and
    reports the load as failed. *)
Theorem separator_breaks_text_mirror :
  forall w a j,
    j = None \/ j = Some NotJson ->
    Forall one_line_income (incomes (self w)) ->
    Forall one_line_expense (expenses (self w)) ->
    (exists i, In i (incomes (self w)) /\ has_char "|" (source i) = true)
    \/ (exists e, In e (expenses (self w))
                  /\ (has_char "|" (description e) = true
                      \/ has_char "|" (category e) = true)) ->
    exists w2,
      __init__ a
        (with_disk {| finance_data_json := j;
                      finance_data_txt := Some (mirror_text (self w)) |} w)
      = (Ok tt, w2)
      /\ incomes (self w2) = [] /\ expenses (self w2) = []
      /\ files_loaded (self w2) = false.
Proof.
  intros w a j Hj Hi He Hbad.
  set (w1 := with_disk _ w).
  assert (Hline : exists line,
    In line (readlines (universal_newlines (mirror_text (self w))))
    /\ malformed_line line = true).
  { rewrite (mirror_text_lines _ Hi He).
    destruct Hbad as [(i & Hin & Hp) | (e & Hin & Hp)].
    - exists (income_line i). split; [| apply income_line_malformed; exact Hp].
      apply in_or_app. right. apply in_map. exact Hin.
    - exists (expense_line e). split; [| apply expense_line_malformed; exact Hp].
      apply in_or_app. left. apply in_map. exact Hin. }
  destruct Hline as (line & Hin & Hmal).
  destruct (load_txt_raises (with_self (fresh a) w1)) as (e & w' & Hl).
  { right. exists (mirror_text (self w)), line. auto. }
  pose proof (init_run a w1) as Hinit.
  rewrite (load_from_file_fallback (with_self (fresh a) w1)) in Hinit
    by (simpl; exact Hj).
  rewrite Hl in Hinit. eexists. split; [exact Hinit |]. simpl. auto.
Qed.

End Mirror.

(** ** The window *)

Section WindowProperties.
Context `{Num : Number}.
Variable format_2f : number -> string.

Implicit Types (app : FinanceManager.App).

Lemma insert_rows {A} (row : A -> string) (xs : list A) (l : FinanceManager.Listbox) :
  fold_left (fun l x => FinanceManager.listbox_insert_end l (row x)) xs l
  = {| FinanceManager.items := FinanceManager.items l ++ map row xs;
       FinanceManager.curselection := FinanceManager.curselection l |}.
Proof.
  revert l. induction xs as [| x xs IH]; intros l; simpl.
  - rewrite app_nil_r. destruct l; reflexivity.
  - rewrite IH. simpl. rewrite <- app_assoc. reflexivity.
Qed.

Lemma process_income_change_run app :
  FinanceManager._process_income_change format_2f app
  = (Ok tt, income_refreshed format_2f app).
Proof.
  unfold FinanceManager._process_income_change, FinanceManager._process_totals,
    FinanceManager.gbind, FinanceManager.update_ui, FinanceManager.ledger,
    income_refreshed. simpl.
  rewrite insert_rows. reflexivity.
Qed.

Lemma process_expense_change_run app :
  FinanceManager._process_expense_change format_2f app
  = (Ok tt, expense_refreshed format_2f app).
Proof.
  unfold FinanceManager._process_expense_change, FinanceManager._process_totals,
    FinanceManager.gbind, FinanceManager.update_ui, FinanceManager.ledger,
    expense_refreshed. simpl.
  rewrite insert_rows. reflexivity.
Qed.

Lemma parse_float_result text field_name :
  (exists v, parse_float text field_name = Ok v /\ lt0 v = false)
  \/ (exists msg, parse_float text field_name = Raise (ValueError msg)).
Proof.
  unfold parse_float. destruct (py_float text) as [v |]; [| eauto].
  destruct (lt0 v) eqn:Hv; eauto.
Qed.

Lemma strip_nonblank s :
  is_empty (strip s) = false -> is_empty (strip (strip s)) = false.
Proof. intros H. rewrite strip_idem. exact H. Qed.

(** X8. The "Add Income" button never raises. With a blank source, or
    an amount that is not a number or is negative, it shows one "Income
    Error" box with the message and changes nothing else. Otherwise the
    ledger accepts the record, whose source is the trimmed text of the
    field; the form is emptied and the list and totals refreshed. *)
Theorem window_add_income_outcome :
  forall app,
    let src := strip (FinanceManager.income_source (FinanceManager.ui app)) in
    let amount := strip (FinanceManager.income_amount_entry (FinanceManager.ui app)) in
    (is_empty src = true ->
     FinanceManager.add_income format_2f app
     = (Ok tt, with_error "Income Error" "Source is required." app))
    /\ (is_empty src = false ->
        forall e, parse_float amount "Amount" = Raise e ->
        exists msg,
          e = ValueError msg
          /\ FinanceManager.add_income format_2f app
             = (Ok tt, with_error "Income Error" msg app))
    /\ (is_empty src = false ->
        forall v, parse_float amount "Amount" = Ok v ->
        exists w',
          add_income src v (FinanceManager.world app) = (Ok tt, w')
          /\ incomes (self w')
             = incomes (self (FinanceManager.world app))
               ++ [{| source := src; income_amount := v |}]
          /\ FinanceManager.add_income format_2f app
             = (Ok tt,
                income_refreshed format_2f
                  {| FinanceManager.world := w';
                     FinanceManager.ui :=
                       FinanceManager.set_income_form EmptyString EmptyString
                         (FinanceManager.ui app) |})).
Proof.
  intros app src amount.
  unfold FinanceManager.add_income, FinanceManager.except_ValueError,
    FinanceManager.gbind, FinanceManager.widgets.
  fold src. fold amount.
  split; [intros ->; reflexivity |].
  split.
  - intros Hs e He. rewrite Hs. unfold FinanceManager.glift. rewrite He.
    destruct (parse_float_result amount "Amount") as [(v & Hv & _) | (msg & Hm)];
      [congruence |].
    rewrite Hm in He. injection He as <-. exists msg. split; reflexivity.
  - intros Hs v Hv. rewrite Hs. unfold FinanceManager.glift. rewrite Hv.
    destruct (parse_float_result amount "Amount") as [(v' & Hv' & Hlt) | (msg & Hm)];
      [| congruence].
    rewrite Hv in Hv'. injection Hv' as <-.
    pose proof (add_income_accepts (FinanceManager.world app) src v Hlt
                  (strip_nonblank _ Hs)) as Hadd.
    destruct (save_to_file_run
                (with_self (appended_income src v (self (FinanceManager.world app)))
                   (FinanceManager.world app))) as (fs & Hsave & _).
    rewrite Hsave in Hadd.
    eexists. split; [exact Hadd |]. split; [reflexivity |].
    unfold FinanceManager.on_data. rewrite Hadd.
    unfold FinanceManager._reset_income_form, FinanceManager.update_ui.
    cbn [FinanceManager.world FinanceManager.ui].
    rewrite process_income_change_run. reflexivity.
Qed.


(** X9. The "Add Expense" button, with a system date that is a date of
    the calendar: a blank description, a blank category, a bad amount and
    a bad date, checked in this order, each give one "Expense Error" box
    and change nothing else; otherwise the ledger accepts the record,
    with the trimmed description and category and the parsed date, the
    form is reset and the list and totals refreshed. *)
Theorem window_add_expense_outcome :
  forall app,
    let desc := strip (FinanceManager.expense_description (FinanceManager.ui app)) in
    let cat := strip (FinanceManager.expense_category (FinanceManager.ui app)) in
    let amount := strip (FinanceManager.expense_amount_entry (FinanceManager.ui app)) in
    let date_text := FinanceManager.expense_date (FinanceManager.ui app) in
    let t := today (FinanceManager.world app) in
    _check_date_fields t = true ->
    (is_empty desc = true ->
     FinanceManager.add_expense format_2f app
     = (Ok tt, with_error "Expense Error" "Description is required." app))
    /\ (is_empty desc = false -> is_empty cat = true ->
        FinanceManager.add_expense format_2f app
        = (Ok tt, with_error "Expense Error" "Category is required." app))
    /\ (is_empty desc = false -> is_empty cat = false ->
        forall e, parse_float amount "Amount" = Raise e ->
        exists msg,
          e = ValueError msg
          /\ FinanceManager.add_expense format_2f app
             = (Ok tt, with_error "Expense Error" msg app))
    /\ (is_empty desc = false -> is_empty cat = false ->
        forall v e, parse_float amount "Amount" = Ok v ->
        parse_date t date_text = Raise e ->
        FinanceManager.add_expense format_2f app
        = (Ok tt, with_error "Expense Error" date_format_message app))
    /\ (is_empty desc = false -> is_empty cat = false ->
        forall v parsed, parse_float amount "Amount" = Ok v ->
        parse_date t date_text = Ok parsed ->
        exists w',
          add_expense desc cat v parsed (FinanceManager.world app) = (Ok tt, w')
          /\ expenses (self w')
             = expenses (self (FinanceManager.world app))
               ++ [{| description := desc; category := cat;
                      expense_amount := v; date := parsed |}]
          /\ FinanceManager.add_expense format_2f app
             = (Ok tt,
                expense_refreshed format_2f
                  {| FinanceManager.world := w';
                     FinanceManager.ui :=
                       FinanceManager.set_expense_form EmptyString
                         (nth 0 FinanceManager.expense_categories EmptyString)
                         EmptyString (strftime t) (FinanceManager.ui app) |})).
Proof.
  intros app desc cat amount date_text t Ht.
  unfold FinanceManager.add_expense, FinanceManager.except_ValueError,
    FinanceManager.gbind, FinanceManager.widgets, FinanceManager.clock.
  fold desc. fold cat. fold amount. fold date_text. fold t.
  split; [intros ->; reflexivity |].
  split; [intros -> ->; reflexivity |].
  split.
  { intros Hd Hc e He. rewrite Hd, Hc. unfold FinanceManager.glift. rewrite He.
    destruct (parse_float_result amount "Amount") as [(v & Hv & _) | (msg & Hm)];
      [congruence |].
    rewrite Hm in He. injection He as <-. exists msg. split; reflexivity. }
  split.
  { intros Hd Hc v e Hv He. rewrite Hd, Hc. unfold FinanceManager.glift.
    rewrite Hv. fold t. rewrite He. unfold parse_date in He.
    destruct (is_empty (strip date_text)); [discriminate |].
    destruct (strptime (strip date_text)); [discriminate |].
    injection He as <-. reflexivity. }
  intros Hd Hc v parsed Hv Hp. rewrite Hd, Hc. unfold FinanceManager.glift.
  rewrite Hv. fold t. rewrite Hp.
  destruct (parse_float_result amount "Amount") as [(v' & Hv' & Hlt) | (msg & Hm)];
    [| congruence].
  rewrite Hv in Hv'. injection Hv' as <-.
  pose proof (add_expense_accepts (FinanceManager.world app) desc cat v parsed parsed
                (strip_nonblank _ Hc) (strip_nonblank _ Hd) Hlt
                (parse_date_again t date_text parsed Ht Hp)) as Hadd.
  destruct (save_to_file_run
              (with_self
                 (appended_expense desc cat v parsed (self (FinanceManager.world app)))
                 (FinanceManager.world app))) as (fs & Hsave & _).
  rewrite Hsave in Hadd.
  eexists. split; [exact Hadd |]. split; [reflexivity |].
  unfold FinanceManager.on_data. rewrite Hadd.
  unfold FinanceManager._reset_expense_form, FinanceManager.gbind,
    FinanceManager.clock, FinanceManager.update_ui.
  cbn [FinanceManager.world FinanceManager.ui].
  rewrite process_expense_change_run. reflexivity.
Qed.


Lemma position_nat (n : Z) (k : nat) : position n (Z.of_nat k) = k.
Proof. unfold position. destruct (Z.ltb_spec (Z.of_nat k) 0); lia. Qed.

(** X10. The "Delete" buttons: with no row selected, or the header row
    (row 0), nothing changes; with row [k+1] selected the record at
    position [k] is deleted and the list refreshed; a row beyond the
    records raises [IndexError] and changes nothing. *)
Theorem window_delete_outcome :
  (forall app,
     let sel := FinanceManager.curselection
                  (FinanceManager.income_list (FinanceManager.ui app)) in
     let n := length (incomes (self (FinanceManager.world app))) in
     (sel = [] \/ (exists rest, sel = 0%nat :: rest) ->
      FinanceManager.delete_income format_2f app = (Ok tt, app))
     /\ (forall k rest, sel = S k :: rest -> (k < n)%nat ->
         exists w',
           delete_income (Z.of_nat k) (FinanceManager.world app) = (Ok tt, w')
           /\ incomes (self w') = delete k (incomes (self (FinanceManager.world app)))
           /\ expenses (self w') = expenses (self (FinanceManager.world app))
           /\ FinanceManager.delete_income format_2f app
              = (Ok tt,
                 income_refreshed format_2f
                   {| FinanceManager.world := w';
                      FinanceManager.ui := FinanceManager.ui app |}))
     /\ (forall k rest, sel = S k :: rest -> (n <= k)%nat ->
         FinanceManager.delete_income format_2f app = (Raise IndexError, app)))
  /\
  (forall app,
     let sel := FinanceManager.curselection
                  (FinanceManager.expense_list (FinanceManager.ui app)) in
     let n := length (expenses (self (FinanceManager.world app))) in
     (sel = [] \/ (exists rest, sel = 0%nat :: rest) ->
      FinanceManager.delete_expense format_2f app = (Ok tt, app))
     /\ (forall k rest, sel = S k :: rest -> (k < n)%nat ->
         exists w',
           delete_expense (Z.of_nat k) (FinanceManager.world app) = (Ok tt, w')
           /\ expenses (self w') = delete k (expenses (self (FinanceManager.world app)))
           /\ incomes (self w') = incomes (self (FinanceManager.world app))
           /\ FinanceManager.delete_expense format_2f app
              = (Ok tt,
                 expense_refreshed format_2f
                   {| FinanceManager.world := w';
                      FinanceManager.ui := FinanceManager.ui app |}))
     /\ (forall k rest, sel = S k :: rest -> (n <= k)%nat ->
         FinanceManager.delete_expense format_2f app = (Raise IndexError, app))).
Proof.
  split; intros app sel n.
  - unfold FinanceManager.delete_income, FinanceManager.gbind, FinanceManager.widgets.
    fold sel. split; [| split].
    + intros [-> | [rest ->]]; reflexivity.
    + intros k rest -> Hk. cbn [Nat.eqb].
      replace (Z.of_nat (S k) - 1) with (Z.of_nat k) by lia.
      destruct (proj1 (delete_income_run (FinanceManager.world app) (Z.of_nat k)))
        as (w' & Hrun & Hinc & Hexp & _); [fold n; lia |].
      rewrite position_nat in Hinc.
      exists w'. repeat (split; [assumption |]).
      unfold FinanceManager.on_data. rewrite Hrun.
      apply process_income_change_run.
    + intros k rest -> Hk. cbn [Nat.eqb].
      unfold FinanceManager.on_data.
      rewrite (proj2 (delete_income_run (FinanceManager.world app) (Z.of_nat (S k) - 1)))
        by (fold n; lia).
      destruct app; reflexivity.
  - unfold FinanceManager.delete_expense, FinanceManager.gbind, FinanceManager.widgets.
    fold sel. split; [| split].
    + intros [-> | [rest ->]]; reflexivity.
    + intros k rest -> Hk. cbn [Nat.eqb].
      replace (Z.of_nat (S k) - 1) with (Z.of_nat k) by lia.
      destruct (proj1 (delete_expense_run (FinanceManager.world app) (Z.of_nat k)))
        as (w' & Hrun & Hexp & Hinc & _); [fold n; lia |].
      rewrite position_nat in Hexp.
      exists w'. repeat (split; [assumption |]).
      unfold FinanceManager.on_data. rewrite Hrun.
      apply process_expense_change_run.
    + intros k rest -> Hk. cbn [Nat.eqb].
      unfold FinanceManager.on_data.
      rewrite (proj2 (delete_expense_run (FinanceManager.world app) (Z.of_nat (S k) - 1)))
        by (fold n; lia).
      destruct app; reflexivity.
Qed.


(** ** The window shows the ledger *)

Lemma shows_with_error title message app :
  shows_ledger format_2f app -> shows_ledger format_2f (with_error title message app).
Proof. intros H. exact H. Qed.

Lemma shows_income_refreshed app :
  FinanceManager.items (FinanceManager.expense_list (FinanceManager.ui app))
  = FinanceManager.expense_header
    :: map (FinanceManager.expense_row format_2f)
         (expenses (self (FinanceManager.world app))) ->
  shows_ledger format_2f (income_refreshed format_2f app).
Proof. intros H. unfold shows_ledger. simpl. auto. Qed.

Lemma shows_expense_refreshed app :
  FinanceManager.items (FinanceManager.income_list (FinanceManager.ui app))
  = FinanceManager.income_header
    :: map (FinanceManager.income_row format_2f)
         (incomes (self (FinanceManager.world app))) ->
  shows_ledger format_2f (expense_refreshed format_2f app).
Proof. intros H. unfold shows_ledger. simpl. auto. Qed.

Lemma income_step_shows app out :
  income_step format_2f app out -> shows_ledger format_2f app -> shows_ledger format_2f (snd out).
Proof.
  intros [r | title message | w' u' He Hl] Hs; simpl.
  - exact Hs.
  - apply shows_with_error. exact Hs.
  - apply shows_income_refreshed. simpl. rewrite He, Hl. apply Hs.
Qed.

Lemma expense_step_shows app out :
  expense_step format_2f app out -> shows_ledger format_2f app -> shows_ledger format_2f (snd out).
Proof.
  intros [r | title message | w' u' Hi Hl] Hs; simpl.
  - exact Hs.
  - apply shows_with_error. exact Hs.
  - apply shows_expense_refreshed. simpl. rewrite Hi, Hl. apply Hs.
Qed.

Lemma after_save_sequences d w :
  incomes (self (snd (save_to_file (with_self d w)))) = incomes d
  /\ expenses (self (snd (save_to_file (with_self d w)))) = expenses d.
Proof. rewrite save_to_file_self. auto. Qed.

Lemma window_add_income_step app :
  income_step format_2f app (FinanceManager.add_income format_2f app).
Proof.
  unfold FinanceManager.add_income, FinanceManager.except_ValueError,
    FinanceManager.gbind, FinanceManager.widgets.
  destruct (is_empty (strip (FinanceManager.income_source (FinanceManager.ui app)))).
  { apply (income_step_error format_2f app). }
  unfold FinanceManager.glift.
  destruct (parse_float_result
              (strip (FinanceManager.income_amount_entry (FinanceManager.ui app)))
              "Amount") as [(v & -> & _) | (msg & ->)];
    [| apply (income_step_error format_2f app)].
  unfold FinanceManager.on_data.
  destruct (add_income_shape (FinanceManager.world app)
              (strip (FinanceManager.income_source (FinanceManager.ui app))) v)
    as [[e ->] | ->].
  - replace {| FinanceManager.world := FinanceManager.world app;
               FinanceManager.ui := FinanceManager.ui app |} with app
      by (destruct app; reflexivity).
    destruct e; first [apply (income_step_error format_2f app) | apply (income_step_same format_2f app)].
  - destruct (save_to_file_run
                (with_self
                   (appended_income
                      (strip (FinanceManager.income_source (FinanceManager.ui app))) v
                      (self (FinanceManager.world app))) (FinanceManager.world app)))
      as (fs & -> & _).
    unfold FinanceManager._reset_income_form, FinanceManager.update_ui.
    cbn [FinanceManager.world FinanceManager.ui].
    rewrite process_income_change_run.
    apply income_step_refreshed; reflexivity.
Qed.

Lemma window_add_expense_step app :
  expense_step format_2f app (FinanceManager.add_expense format_2f app).
Proof.
  unfold FinanceManager.add_expense, FinanceManager.except_ValueError,
    FinanceManager.gbind, FinanceManager.widgets, FinanceManager.clock.
  destruct (is_empty (strip (FinanceManager.expense_description (FinanceManager.ui app)))).
  { apply (expense_step_error format_2f app). }
  destruct (is_empty (strip (FinanceManager.expense_category (FinanceManager.ui app)))).
  { apply (expense_step_error format_2f app). }
  unfold FinanceManager.glift.
  destruct (parse_float_result
              (strip (FinanceManager.expense_amount_entry (FinanceManager.ui app)))
              "Amount") as [(v & -> & _) | (msg & ->)];
    [| apply (expense_step_error format_2f app)].
  destruct (parse_date (today (FinanceManager.world app))
              (FinanceManager.expense_date (FinanceManager.ui app)))
    as [parsed | e] eqn:Hp.
  2:{ destruct e; first [apply (expense_step_error format_2f app) | apply (expense_step_same format_2f app)]. }
  unfold FinanceManager.on_data.
  destruct (add_expense_shape (FinanceManager.world app)
              (strip (FinanceManager.expense_description (FinanceManager.ui app)))
              (strip (FinanceManager.expense_category (FinanceManager.ui app)))
              v parsed) as [[e ->] | (parsed' & _ & ->)].
  - replace {| FinanceManager.world := FinanceManager.world app;
               FinanceManager.ui := FinanceManager.ui app |} with app
      by (destruct app; reflexivity).
    destruct e; first [apply (expense_step_error format_2f app) | apply (expense_step_same format_2f app)].
  - match goal with
    | |- context [save_to_file ?w0] =>
        destruct (save_to_file_run w0) as (fs & -> & _)
    end.
    unfold FinanceManager._reset_expense_form, FinanceManager.gbind,
      FinanceManager.clock, FinanceManager.update_ui.
    cbn [FinanceManager.world FinanceManager.ui].
    rewrite process_expense_change_run.
    apply expense_step_refreshed; reflexivity.
Qed.

Lemma window_delete_income_step app :
  income_step format_2f app (FinanceManager.delete_income format_2f app).
Proof.
  unfold FinanceManager.delete_income, FinanceManager.gbind, FinanceManager.widgets.
  destruct (FinanceManager.curselection
              (FinanceManager.income_list (FinanceManager.ui app))) as [| sel0 rest].
  { apply income_step_same. }
  destruct (Nat.eqb sel0 0); [apply income_step_same |].
  unfold FinanceManager.on_data.
  destruct (delete_income_shape (FinanceManager.world app) (Z.of_nat sel0 - 1))
    as [[-> _] | [_ ->]].
  - replace {| FinanceManager.world := FinanceManager.world app;
               FinanceManager.ui := FinanceManager.ui app |} with app
      by (destruct app; reflexivity).
    apply income_step_same.
  - match goal with
    | |- context [save_to_file ?w0] =>
        destruct (save_to_file_run w0) as (fs & -> & _)
    end.
    rewrite process_income_change_run.
    apply income_step_refreshed; reflexivity.
Qed.

Lemma window_delete_expense_step app :
  expense_step format_2f app (FinanceManager.delete_expense format_2f app).
Proof.
  unfold FinanceManager.delete_expense, FinanceManager.gbind, FinanceManager.widgets.
  destruct (FinanceManager.curselection
              (FinanceManager.expense_list (FinanceManager.ui app))) as [| sel0 rest].
  { apply expense_step_same. }
  destruct (Nat.eqb sel0 0); [apply expense_step_same |].
  unfold FinanceManager.on_data.
  destruct (delete_expense_shape (FinanceManager.world app) (Z.of_nat sel0 - 1))
    as [[-> _] | [_ ->]].
  - replace {| FinanceManager.world := FinanceManager.world app;
               FinanceManager.ui := FinanceManager.ui app |} with app
      by (destruct app; reflexivity).
    apply expense_step_same.
  - match goal with
    | |- context [save_to_file ?w0] =>
        destruct (save_to_file_run w0) as (fs & -> & _)
    end.
    rewrite process_expense_change_run.
    apply expense_step_refreshed; reflexivity.
Qed.


Lemma window_delete_income_ok app :
  shows_ledger format_2f app ->
  Forall (fun k => (k < length (FinanceManager.items
                                  (FinanceManager.income_list (FinanceManager.ui app))))%nat)
    (FinanceManager.curselection (FinanceManager.income_list (FinanceManager.ui app))) ->
  fst (FinanceManager.delete_income format_2f app) = Ok tt.
Proof.
  intros (Hi & _) Hsel. rewrite Hi in Hsel. simpl in Hsel. rewrite length_map in Hsel.
  unfold FinanceManager.delete_income, FinanceManager.gbind, FinanceManager.widgets.
  destruct (FinanceManager.curselection
              (FinanceManager.income_list (FinanceManager.ui app))) as [| sel0 rest];
    [reflexivity |].
  apply Forall_cons in Hsel. destruct Hsel as [Hk _].
  destruct sel0 as [| k]; [reflexivity |]. cbn [Nat.eqb].
  unfold FinanceManager.on_data.
  destruct (delete_income_shape (FinanceManager.world app) (Z.of_nat (S k) - 1))
    as [[_ Hout] | [_ ->]]; [lia |].
  match goal with
  | |- context [save_to_file ?w0] => destruct (save_to_file_run w0) as (fs & -> & _)
  end.
  rewrite process_income_change_run. reflexivity.
Qed.

Lemma window_delete_expense_ok app :
  shows_ledger format_2f app ->
  Forall (fun k => (k < length (FinanceManager.items
                                  (FinanceManager.expense_list (FinanceManager.ui app))))%nat)
    (FinanceManager.curselection (FinanceManager.expense_list (FinanceManager.ui app))) ->
  fst (FinanceManager.delete_expense format_2f app) = Ok tt.
Proof.
  intros (_ & He & _) Hsel. rewrite He in Hsel. simpl in Hsel. rewrite length_map in Hsel.
  unfold FinanceManager.delete_expense, FinanceManager.gbind, FinanceManager.widgets.
  destruct (FinanceManager.curselection
              (FinanceManager.expense_list (FinanceManager.ui app))) as [| sel0 rest];
    [reflexivity |].
  apply Forall_cons in Hsel. destruct Hsel as [Hk _].
  destruct sel0 as [| k]; [reflexivity |]. cbn [Nat.eqb].
  unfold FinanceManager.on_data.
  destruct (delete_expense_shape (FinanceManager.world app) (Z.of_nat (S k) - 1))
    as [[_ Hout] | [_ ->]]; [lia |].
  match goal with
  | |- context [save_to_file ?w0] => destruct (save_to_file_run w0) as (fs & -> & _)
  end.
  rewrite process_expense_change_run. reflexivity.
Qed.

(** X11. A window whose lists and totals are those of the ledger stays
    so whatever button is pressed, whether the handler returns or raises;
    and in such a window a "Delete" button whose selection is a row of
    its list never raises. *)
Theorem window_keeps_showing_ledger :
  forall app,
    shows_ledger format_2f app ->
    shows_ledger format_2f (snd (FinanceManager.add_income format_2f app))
    /\ shows_ledger format_2f (snd (FinanceManager.add_expense format_2f app))
    /\ shows_ledger format_2f (snd (FinanceManager.delete_income format_2f app))
    /\ shows_ledger format_2f (snd (FinanceManager.delete_expense format_2f app))
    /\ (Forall (fun k =>
                  (k < length (FinanceManager.items
                                 (FinanceManager.income_list (FinanceManager.ui app))))%nat)
          (FinanceManager.curselection
             (FinanceManager.income_list (FinanceManager.ui app))) ->
        fst (FinanceManager.delete_income format_2f app) = Ok tt)
    /\ (Forall (fun k =>
                  (k < length (FinanceManager.items
                                 (FinanceManager.expense_list (FinanceManager.ui app))))%nat)
          (FinanceManager.curselection
             (FinanceManager.expense_list (FinanceManager.ui app))) ->
        fst (FinanceManager.delete_expense format_2f app) = Ok tt).
Proof.
  intros app Hs.
  split; [exact (income_step_shows _ _ (window_add_income_step app) Hs) |].
  split; [exact (expense_step_shows _ _ (window_add_expense_step app) Hs) |].
  split; [exact (income_step_shows _ _ (window_delete_income_step app) Hs) |].
  split; [exact (expense_step_shows _ _ (window_delete_expense_step app) Hs) |].
  split; [apply window_delete_income_ok | apply window_delete_expense_ok]; exact Hs.
Qed.


End WindowProperties.

(** * The further theorems at work on the sample states *)

Lemma parse_date_result_is_stable_witness :
  _check_date_fields sample_today = true
  /\ parse_date sample_today " 2024-01-20 " = Ok "2024-01-20"%string
  /\ strip "2024-01-20" = "2024-01-20"%string
  /\ date_parses "2024-01-20" = true
  /\ forall later, parse_date later "2024-01-20" = Ok "2024-01-20"%string.
Proof.
  split; [reflexivity |]. split; [reflexivity |].
  apply (parse_date_result_is_stable sample_today " 2024-01-20 "); reflexivity.
Defined.

Lemma test_mode_never_writes_witness :
  autosave (self (sample_world false)) = false
  /\ disk (snd (add_income "stocks" 1000 (sample_world false))) = no_files
  /\ disk (snd (delete_expense 0 (sample_world false))) = no_files.
Proof.
  split; [reflexivity |].
  destruct (test_mode_never_writes (sample_world false) eq_refl)
    as (_ & Hadd & _ & _ & Hdel).
  split; [exact (Hadd "stocks"%string 1000) | exact (Hdel 0)].
Defined.

Lemma mutations_are_durable_witness :
  autosave (self (sample_world true)) = true
  /\ fst (add_income "stocks" 1000 (sample_world true)) = Ok tt
  /\ (exists w2,
        __init__ false
          {| self := self two_incomes_world;
             disk := disk (snd (add_income "stocks" 1000 (sample_world true)));
             today := sample_today |}
        = (Ok tt, w2)
        /\ incomes (self w2)
           = [{| source := "job"; income_amount := 1123 |};
              {| source := "stocks"; income_amount := 1000 |}]
        /\ expenses (self w2) = expenses (self (sample_world true))
        /\ files_loaded (self w2) = true)
  /\ reloads false (snd (delete_expense 0 (sample_world true))).
Proof.
  split; [reflexivity |]. split; [reflexivity |].
  destruct (mutations_are_durable (sample_world true) false eq_refl)
    as (Hadd & _ & _ & Hdel).
  split.
  - exact (Hadd "stocks"%string 1000
             (snd (add_income "stocks" 1000 (sample_world true))) eq_refl
             (self two_incomes_world) sample_today).
  - apply (Hdel 0). reflexivity.
Defined.

Lemma delete_undoes_add_witness :
  (is_empty (strip "stocks") = false
   /\ lt0 (1000 : @number int_Number) = false
   /\ exists w1,
        add_income "stocks" 1000 (sample_world true) = (Ok tt, w1)
        /\ delete_income (-1) w1 = save_to_file (sample_world true)
        /\ delete_income 1 w1 = save_to_file (sample_world true))
  /\
  (parse_date sample_today "2024-01-01" = Ok "2024-01-01"%string
   /\ exists w1,
        add_expense "rent" "housing" 2000 "2024-01-01" (sample_world true)
        = (Ok tt, w1)
        /\ delete_expense (-1) w1 = save_to_file (sample_world true)
        /\ delete_expense 1 w1 = save_to_file (sample_world true)).
Proof.
  split.
  - split; [reflexivity |]. split; [reflexivity |].
    apply (proj1 delete_undoes_add (sample_world true) "stocks"%string 1000);
      reflexivity.
  - split; [reflexivity |].
    apply (proj2 delete_undoes_add (sample_world true) "rent"%string
             "housing"%string 2000 "2024-01-01"%string "2024-01-01"%string);
      reflexivity.
Defined.

Lemma delete_lowers_total_witness :
  - 2 <= -1 < 2
  /\ exists w' r,
       delete_income (-1) two_incomes_world = (Ok tt, w')
       /\ incomes (self two_incomes_world) !! position 2 (-1) = Some r
       /\ total_income (self w') = total_income (self two_incomes_world) - income_amount r
       /\ total_expenses (self w') = total_expenses (self two_incomes_world)
       /\ balance (self w') = balance (self two_incomes_world) - income_amount r.
Proof.
  split; [lia |].
  apply (proj1 delete_lowers_total two_incomes_world (-1)). simpl. lia.
Defined.

Lemma text_mirror_round_trip_witness :
  Forall plain_income (incomes (self (sample_world true)))
  /\ Forall plain_expense (expenses (self (sample_world true)))
  /\ finance_data_txt (disk (snd (save_to_file (sample_world true))))
     = Some ("Expense|car lease|transportation|500|2024-01-20" ++ newline
             ++ "Income|job|1123" ++ newline)%string
  /\ exists w2,
       __init__ false
         {| self := self two_incomes_world;
            disk := {| finance_data_json := Some NotJson;
                       finance_data_txt :=
                         finance_data_txt (disk (snd (save_to_file (sample_world true)))) |};
            today := sample_today |}
       = (Ok tt, w2)
       /\ incomes (self w2) = incomes (self (sample_world true))
       /\ expenses (self w2) = expenses (self (sample_world true))
       /\ files_loaded (self w2) = true.
Proof.
  assert (Hi : Forall plain_income (incomes (self (sample_world true)))).
  { repeat constructor. }
  assert (He : Forall plain_expense (expenses (self (sample_world true)))).
  { repeat constructor. }
  split; [exact Hi |]. split; [exact He |]. split; [reflexivity |].
  exact (text_mirror_round_trip (sample_world true) false (Some NotJson)
           (self two_incomes_world) sample_today eq_refl Hi He (or_intror eq_refl)).
Defined.

Lemma separator_breaks_text_mirror_witness :
  (fst (add_income "tips|cash" 40 (with_self (fresh true) separator_world)) = Ok tt
   /\ incomes (self (snd (add_income "tips|cash" 40
                            (with_self (fresh true) separator_world))))
      = incomes (self separator_world))
  /\ exists w2,
       __init__ true
         (with_disk {| finance_data_json := None;
                       finance_data_txt := Some (mirror_text (self separator_world)) |}
            separator_world)
       = (Ok tt, w2)
       /\ incomes (self w2) = [] /\ expenses (self w2) = []
       /\ files_loaded (self w2) = false.
Proof.
  split; [split; reflexivity |].
  apply (separator_breaks_text_mirror separator_world true None).
  - left. reflexivity.
  - repeat constructor.
  - constructor.
  - left. eexists. split; [left; reflexivity | reflexivity].
Defined.

Lemma window_add_income_outcome_witness :
  exists w',
    add_income "bonus" 250 (sample_world true) = (Ok tt, w')
    /\ incomes (self w')
       = [{| source := "job"; income_amount := 1123 |};
          {| source := "bonus"; income_amount := 250 |}]
    /\ FinanceManager.add_income int_format_2f sample_app
       = (Ok tt,
          income_refreshed int_format_2f
            {| FinanceManager.world := w';
               FinanceManager.ui :=
                 FinanceManager.set_income_form EmptyString EmptyString
                   (FinanceManager.ui sample_app) |}).
Proof.
  apply (proj2 (proj2 (window_add_income_outcome int_format_2f sample_app)));
    reflexivity.
Defined.

Lemma window_add_expense_outcome_witness :
  _check_date_fields (today (FinanceManager.world sample_app)) = true
  /\ exists w',
       add_expense "rent" "Housing" 900 "2026-03-01" (sample_world true) = (Ok tt, w')
       /\ expenses (self w')
          = expenses (self (sample_world true))
            ++ [{| description := "rent"; category := "Housing";
                   expense_amount := 900; date := "2026-03-01" |}]
       /\ FinanceManager.add_expense int_format_2f sample_app
          = (Ok tt,
             expense_refreshed int_format_2f
               {| FinanceManager.world := w';
                  FinanceManager.ui :=
                    FinanceManager.set_expense_form EmptyString "Housing"
                      EmptyString "2026-03-07" (FinanceManager.ui sample_app) |}).
Proof.
  split; [reflexivity |].
  apply (proj2 (proj2 (proj2 (proj2
           (window_add_expense_outcome int_format_2f sample_app eq_refl)))));
    reflexivity.
Defined.

Lemma window_delete_outcome_witness :
  (0 < length (incomes (self (FinanceManager.world sample_app))))%nat
  /\ exists w',
       delete_income 0 (sample_world true) = (Ok tt, w')
       /\ incomes (self w') = []
       /\ expenses (self w') = expenses (self (sample_world true))
       /\ FinanceManager.delete_income int_format_2f sample_app
          = (Ok tt,
             income_refreshed int_format_2f
               {| FinanceManager.world := w';
                  FinanceManager.ui := FinanceManager.ui sample_app |}).
Proof.
  split; [simpl; lia |].
  apply (proj1 (proj2 (proj1 (window_delete_outcome int_format_2f) sample_app))
           0%nat []); [reflexivity | simpl; lia].
Defined.

Lemma window_keeps_showing_ledger_witness :
  shows_ledger int_format_2f sample_app
  /\ shows_ledger int_format_2f
       (snd (FinanceManager.add_income int_format_2f sample_app))
  /\ fst (FinanceManager.delete_expense int_format_2f sample_app) = Ok tt.
Proof.
  assert (Hs : shows_ledger int_format_2f sample_app).
  { repeat split. }
  split; [exact Hs |].
  destruct (window_keeps_showing_ledger int_format_2f sample_app Hs)
    as (Hadd & _ & _ & _ & _ & Hdel).
  split; [exact Hadd |].
  apply Hdel. repeat constructor.
Defined.

